(** * AXI VDMA frame buffer driver (drivers/video/fbdev/vdmafb.c)

    A shallow embedding of the driver and the properties of its
    descriptor builder, palette writes and attach/detach sequences.

    Conventions.
    - C integers are [Z] with the wrap-around of their type written out
      ([u32], [s32], [to_size_t]).
    - Calls into the rest of the kernel (dmaengine, DMA mapping, fbdev
      core, devres) are primitive operations of a state monad [M]: each
      appends an [event] to the log of the [world], acts on the modelled
      heap and DMA engine, and takes its outcome from an [env].
    - Diagnostics (pr_err, dev_err, pr_info, pr_debug) have no effect on
      any modelled state and are left out. *)

From Stdlib Require Import ZArith Lia Bool List String.
From stdpp Require Import base list.
Import ListNotations.

Local Open Scope Z_scope.

(** ** Machine integers *)

(** What the headers fix per architecture: the page size used by
    PAGE_ALIGN and the width of [long]/[size_t]. *)
Record platform := {
  PAGE_SIZE : Z;
  BITS_PER_LONG : Z
}.

(** 32-bit ARM (Zynq-7000), 4 KiB pages. *)
Definition zynq : platform := {| PAGE_SIZE := 4096; BITS_PER_LONG := 32 |}.

(** 64-bit ARM (ZynqMP), 4 KiB pages. *)
Definition zynqmp : platform := {| PAGE_SIZE := 4096; BITS_PER_LONG := 64 |}.

Definition platform_ok (p : platform) : Prop :=
  (BITS_PER_LONG p = 32 \/ BITS_PER_LONG p = 64) /\
  exists k, 0 <= k < 31 /\ PAGE_SIZE p = 2 ^ k.

Definition INT_MAX : Z := 2147483647.

(** Value of an expression of type [u32] / [unsigned int]. *)
Definition u32 (x : Z) : Z := x mod 2 ^ 32.

(** Conversion to [int] (two's complement, as gcc defines it). *)
Definition s32 (x : Z) : Z :=
  let r := x mod 2 ^ 32 in if r <? 2 ^ 31 then r else r - 2 ^ 32.

(** Conversion to [size_t] / [unsigned long]. *)
Definition to_size_t (p : platform) (x : Z) : Z := x mod 2 ^ BITS_PER_LONG p.

(** [a << n] and [a >> n] on [u32].  C leaves counts of 32 and more
    undefined; here they are the mathematical shift cut to 32 bits.
    [shift_counts_defined] below says when no such count occurs. *)
Definition shl32 (a n : Z) : Z := u32 (Z.shiftl a n).
Definition shr32 (a n : Z) : Z := Z.shiftr (u32 a) n.
Definition sub32 (a b : Z) : Z := u32 (a - b).
Definition mul32 (a b : Z) : Z := u32 (a * b).
Definition or32 (a b : Z) : Z := Z.lor a b.

(** PAGE_ALIGN(x) is ALIGN(x, PAGE_SIZE), that is
    (x + (PAGE_SIZE - 1)) & ~(PAGE_SIZE - 1), computed in the type of x:
    the caller wraps the result to that type ([s32] on an [int], [u32]
    on a [u32]). *)
Definition PAGE_ALIGN (p : platform) (x : Z) : Z :=
  Z.land (x + (PAGE_SIZE p - 1)) (Z.lnot (PAGE_SIZE p - 1)).

(** ** Constants of the kernel headers *)

(** Modelled from the spec: the spec names the error causes only
    (allocation error, range error); the numbers are those of
    include/uapi/asm-generic/errno-base.h, which is not part of the
    driver's source file. *)
Definition ENOMEM : Z := 12.
Definition EINVAL : Z := 22.

(** include/uapi/linux/fb.h *)
Definition FB_ACCEL_NONE : Z := 0.
Definition FB_ACTIVATE_NOW : Z := 0.
Definition FB_VMODE_NONINTERLACED : Z := 0.
Definition FB_TYPE_PACKED_PIXELS : Z := 0.
Definition FB_VISUAL_TRUECOLOR : Z := 2.
Definition KHZ2PICOS (a : Z) : Z := 1000000000 / a.

(** ** Structures of linux/fb.h *)

Module fb.

Record fb_bitfield := {
  offset : Z;
  length : Z
}.

Record fb_var_screeninfo := {
  xres : Z;
  yres : Z;
  xres_virtual : Z;
  yres_virtual : Z;
  bits_per_pixel : Z;
  red : fb_bitfield;
  green : fb_bitfield;
  blue : fb_bitfield;
  transp : fb_bitfield;
  activate : Z;
  accel_flags : Z;
  pixclock : Z;
  vmode : Z
}.

Record fb_fix_screeninfo := {
  id : string;
  smem_start : Z;
  smem_len : Z;
  type : Z;
  visual : Z;
  line_length : Z
}.

(** [fbops], [device] and [par] are constant pointers set once in probe;
    [pseudo_palette] points at the palette array of the enclosing
    [vdmafb_dev] and is represented there. *)
Record fb_info := {
  var : fb_var_screeninfo;
  fix_ : fb_fix_screeninfo;
  screen_base : Z
}.

Definition zero_bitfield : fb_bitfield := {| offset := 0; length := 0 |}.

Definition zero_var : fb_var_screeninfo :=
  {| xres := 0; yres := 0; xres_virtual := 0; yres_virtual := 0;
     bits_per_pixel := 0;
     red := zero_bitfield; green := zero_bitfield;
     blue := zero_bitfield; transp := zero_bitfield;
     activate := 0; accel_flags := 0; pixclock := 0; vmode := 0 |}.

Definition zero_fix : fb_fix_screeninfo :=
  {| id := EmptyString; smem_start := 0; smem_len := 0; type := 0;
     visual := 0; line_length := 0 |}.

Definition zero_info : fb_info :=
  {| var := zero_var; fix_ := zero_fix; screen_base := 0 |}.

End fb.

(** ** Structures of linux/dmaengine.h and linux/dma/xilinx_dma.h *)

Module dmaengine.

Inductive dma_transfer_direction :=
| DMA_MEM_TO_MEM
| DMA_MEM_TO_DEV
| DMA_DEV_TO_MEM
| DMA_DEV_TO_DEV
| DMA_TRANS_NONE.

Record data_chunk := {
  size : Z;
  icg : Z
}.

(** [sgl] is the flexible array at the end of the template; the driver
    allocates room for exactly one chunk, sgl[0], which is what the
    field holds. *)
Record dma_interleaved_template := {
  src_start : Z;
  dst_start : Z;
  dir : dma_transfer_direction;
  src_inc : bool;
  dst_inc : bool;
  src_sgl : bool;
  dst_sgl : bool;
  numf : Z;
  frame_size : Z;
  sgl : data_chunk
}.

(** The only field of [struct xilinx_vdma_config] the driver sets; the
    others stay at the zero written by memset. *)
Record xilinx_vdma_config := {
  park : Z
}.

Definition zero_chunk : data_chunk := {| size := 0; icg := 0 |}.

(** What devm_kzalloc returns for
    sizeof(struct dma_interleaved_template) + sizeof(struct data_chunk). *)
Definition zero_template : dma_interleaved_template :=
  {| src_start := 0; dst_start := 0; dir := DMA_MEM_TO_MEM;
     src_inc := false; dst_inc := false; src_sgl := false; dst_sgl := false;
     numf := 0; frame_size := 0; sgl := zero_chunk |}.

(** A value of type [struct dma_chan *] as dma_request_slave_channel can
    return it: NULL, an encoded error ERR_PTR(e) with e a negative
    errno, or a channel. *)
Inductive dma_chan_ptr :=
| chan_null
| chan_err (e : Z)
| chan_ok (c : Z).

(** linux/err.h on such a pointer. *)
Definition IS_ERR_OR_NULL (c : dma_chan_ptr) : bool :=
  match c with
  | chan_ok _ => false
  | _ => true
  end.

(** PTR_ERR is the pointer value read as a [long]: 0 for NULL, the
    errno for an encoded error, the address for a real channel. *)
Definition PTR_ERR (c : dma_chan_ptr) : Z :=
  match c with
  | chan_null => 0
  | chan_err e => e
  | chan_ok a => a
  end.

End dmaengine.

(** ** The driver's device structure *)

(** [dma_template] holds the pointee of the C pointer of that name;
    [pseudo_palette] is the array that [info.pseudo_palette] points at. *)
Record vdmafb_dev := {
  info : fb.fb_info;
  fb_phys : Z;
  fb_virt : Z;
  dma : dmaengine.dma_chan_ptr;
  dma_template : dmaengine.dma_interleaved_template;
  pseudo_palette : list Z
}.

(** The structure as devm_kzalloc hands it out. *)
Definition zero_dev : vdmafb_dev :=
  {| info := fb.zero_info; fb_phys := 0; fb_virt := 0;
     dma := dmaengine.chan_null;
     dma_template := dmaengine.zero_template;
     pseudo_palette := replicate 16 0 |}.

Definition set_info (d : vdmafb_dev) (i : fb.fb_info) : vdmafb_dev :=
  {| info := i; fb_phys := fb_phys d; fb_virt := fb_virt d; dma := dma d;
     dma_template := dma_template d; pseudo_palette := pseudo_palette d |}.

Definition set_var (d : vdmafb_dev) (v : fb.fb_var_screeninfo) : vdmafb_dev :=
  set_info d {| fb.var := v; fb.fix_ := fb.fix_ (info d);
                fb.screen_base := fb.screen_base (info d) |}.

Definition set_fix (d : vdmafb_dev) (f : fb.fb_fix_screeninfo) : vdmafb_dev :=
  set_info d {| fb.var := fb.var (info d); fb.fix_ := f;
                fb.screen_base := fb.screen_base (info d) |}.

Definition set_screen_base (d : vdmafb_dev) (a : Z) : vdmafb_dev :=
  set_info d {| fb.var := fb.var (info d); fb.fix_ := fb.fix_ (info d);
                fb.screen_base := a |}.

Definition set_smem_start (d : vdmafb_dev) (a : Z) : vdmafb_dev :=
  let f := fb.fix_ (info d) in
  set_fix d {| fb.id := fb.id f; fb.smem_start := a;
               fb.smem_len := fb.smem_len f; fb.type := fb.type f;
               fb.visual := fb.visual f; fb.line_length := fb.line_length f |}.

Definition set_fb (d : vdmafb_dev) (virt phys : Z) : vdmafb_dev :=
  {| info := info d; fb_phys := phys; fb_virt := virt; dma := dma d;
     dma_template := dma_template d; pseudo_palette := pseudo_palette d |}.

Definition set_dma (d : vdmafb_dev) (c : dmaengine.dma_chan_ptr) : vdmafb_dev :=
  {| info := info d; fb_phys := fb_phys d; fb_virt := fb_virt d; dma := c;
     dma_template := dma_template d; pseudo_palette := pseudo_palette d |}.

Definition set_dma_template (d : vdmafb_dev)
    (t : dmaengine.dma_interleaved_template) : vdmafb_dev :=
  {| info := info d; fb_phys := fb_phys d; fb_virt := fb_virt d; dma := dma d;
     dma_template := t; pseudo_palette := pseudo_palette d |}.

Definition set_pseudo_palette (d : vdmafb_dev) (pal : list Z) : vdmafb_dev :=
  {| info := info d; fb_phys := fb_phys d; fb_virt := fb_virt d; dma := dma d;
     dma_template := dma_template d; pseudo_palette := pal |}.

(** ** vdmafb_init_var and vdmafb_init_fix *)

(** Every modelled field of [var] is assigned; [xres_virtual] and
    [yres_virtual] read the [xres] and [yres] assigned just before. *)
Definition vdmafb_init_var (fbdev : vdmafb_dev) : vdmafb_dev :=
  let xres := 800 in
  let yres := 480 in
  set_var fbdev
    {| fb.xres := xres;
       fb.yres := yres;
       fb.accel_flags := FB_ACCEL_NONE;
       fb.activate := FB_ACTIVATE_NOW;
       fb.xres_virtual := xres;
       fb.yres_virtual := yres;
       fb.bits_per_pixel := 32;
       fb.pixclock := KHZ2PICOS 33260;
       fb.vmode := FB_VMODE_NONINTERLACED;
       fb.transp := {| fb.offset := 24; fb.length := 8 |};
       fb.red := {| fb.offset := 16; fb.length := 8 |};
       fb.green := {| fb.offset := 8; fb.length := 8 |};
       fb.blue := {| fb.offset := 0; fb.length := 8 |} |}.

Definition vdmafb_init_fix (fbdev : vdmafb_dev) : vdmafb_dev :=
  let var := fb.var (info fbdev) in
  let fix_ := fb.fix_ (info fbdev) in
  let line_length := mul32 (fb.xres var) (fb.bits_per_pixel var / 8) in
  set_fix fbdev
    {| fb.id := "vdma-fb"%string;
       fb.line_length := line_length;
       fb.smem_len := mul32 line_length (fb.yres var);
       fb.type := FB_TYPE_PACKED_PIXELS;
       fb.visual := FB_VISUAL_TRUECOLOR;
       fb.smem_start := fb.smem_start fix_ |}.

(** ** vdmafb_setcolreg *)

(** [info] is [&fbdev->info] and [pal] is [fbdev->pseudo_palette] (probe
    sets [info.pseudo_palette] to that array), so the function is a
    transformer of the device structure.  The three colour shifts are
    evaluated before the range check, as in the source. *)
Definition vdmafb_setcolreg (regno red green blue transp : Z)
    (fbdev : vdmafb_dev) : Z * vdmafb_dev :=
  let var := fb.var (info fbdev) in
  let pal := pseudo_palette fbdev in
  let cr := shr32 red (sub32 16 (fb.length (fb.red var))) in
  let cg := shr32 green (sub32 16 (fb.length (fb.green var))) in
  let cb := shr32 blue (sub32 16 (fb.length (fb.blue var))) in
  if 16 <=? u32 regno then (- EINVAL, fbdev)
  else
    let value := or32 (or32 (shl32 cr (fb.offset (fb.red var)))
                            (shl32 cg (fb.offset (fb.green var))))
                      (shl32 cb (fb.offset (fb.blue var))) in
    let value :=
      if 0 <? fb.length (fb.transp var) then
        let mask := u32 (s32 (Z.shiftl 1 (fb.length (fb.transp var))) - 1) in
        let mask := shl32 mask (fb.offset (fb.transp var)) in
        or32 value mask
      else value in
    (0, set_pseudo_palette fbdev (<[Z.to_nat (u32 regno) := value]> pal)).

(** The transparency mask of a layout, ((1 << length) - 1) << offset. *)
Definition transp_mask (var : fb.fb_var_screeninfo) : Z :=
  shl32 (u32 (s32 (Z.shiftl 1 (fb.length (fb.transp var))) - 1))
        (fb.offset (fb.transp var)).

(** The layouts on which every shift of vdmafb_setcolreg has a count
    below 32, so that C defines its result. *)
Definition shift_counts_defined (var : fb.fb_var_screeninfo) : bool :=
  (fb.length (fb.red var) <=? 16) && (fb.length (fb.green var) <=? 16) &&
  (fb.length (fb.blue var) <=? 16) &&
  (fb.offset (fb.red var) <? 32) && (fb.offset (fb.green var) <? 32) &&
  (fb.offset (fb.blue var) <? 32) &&
  (fb.length (fb.transp var) <? 32) && (fb.offset (fb.transp var) <? 32).

(** ** The world outside the driver *)

(** Calls that leave the driver, in the order they are made. *)
Inductive event :=
| E_devm_kzalloc (ok : bool)
| E_dma_alloc_coherent (size virt phys : Z)
| E_memset_io (addr c n : Z)
| E_dma_request_slave_channel (name : string) (r : dmaengine.dma_chan_ptr)
| E_dmaengine_terminate_all (c : dmaengine.dma_chan_ptr)
| E_xilinx_vdma_channel_set_config (c : dmaengine.dma_chan_ptr)
    (cfg : dmaengine.xilinx_vdma_config)
| E_dmaengine_prep_interleaved_dma (c : dmaengine.dma_chan_ptr)
    (t : dmaengine.dma_interleaved_template) (flags : Z) (ok : bool)
| E_dmaengine_submit (desc : dmaengine.dma_interleaved_template)
| E_dma_async_issue_pending (c : dmaengine.dma_chan_ptr)
| E_fb_alloc_cmap (len transp r : Z)
| E_register_framebuffer (i : fb.fb_info) (r : Z)
| E_unregister_framebuffer (i : fb.fb_info)
| E_dma_release_channel (c : dmaengine.dma_chan_ptr)
| E_dma_free_coherent (size virt phys : Z)
| E_fb_dealloc_cmap.

(** Modelled from the spec: the streaming channel facility (dmaengine and
    the VDMA engine behind it) is not part of the driver's source file.
    Its states and transitions are those of the channel state machine:
    Unbound -(acquire)-> Bound-Idle -(start)-> Bound-Streaming
    -(stop)-> Bound-Idle -(release)-> Unbound. *)
Inductive chan_state := Unbound | BoundIdle | BoundStreaming.

(** Modelled from the spec: the engine's view of one channel: its state,
    the persistent-loop (park) option, the descriptors submitted and not
    yet issued, and the template the engine is streaming. *)
Record dma_engine := {
  ch_state : chan_state;
  ch_park : Z;
  ch_pending : list dmaengine.dma_interleaved_template;
  ch_active : option dmaengine.dma_interleaved_template
}.

Definition engine_unbound : dma_engine :=
  {| ch_state := Unbound; ch_park := 0; ch_pending := []; ch_active := None |}.

(** Modelled from the spec: acquire binds the channel. *)
Definition engine_acquire (g : dma_engine) : dma_engine :=
  {| ch_state := BoundIdle; ch_park := ch_park g;
     ch_pending := ch_pending g; ch_active := ch_active g |}.

(** Modelled from the spec: stop terminates all in-flight and pending
    transfers and returns a bound channel to Bound-Idle; it is idempotent. *)
Definition engine_terminate_all (g : dma_engine) : dma_engine :=
  match ch_state g with
  | Unbound => g
  | _ => {| ch_state := BoundIdle; ch_park := ch_park g;
            ch_pending := []; ch_active := None |}
  end.

(** Modelled from the spec: configure(persistent-loop). *)
Definition engine_set_config (cfg : dmaengine.xilinx_vdma_config)
    (g : dma_engine) : dma_engine :=
  {| ch_state := ch_state g; ch_park := dmaengine.park cfg;
     ch_pending := ch_pending g; ch_active := ch_active g |}.

(** Modelled from the spec: submit queues a prepared descriptor. *)
Definition engine_submit (desc : dmaengine.dma_interleaved_template)
    (g : dma_engine) : dma_engine :=
  {| ch_state := ch_state g; ch_park := ch_park g;
     ch_pending := ch_pending g ++ [desc]; ch_active := ch_active g |}.

(** Modelled from the spec: start makes the engine consume the pending
    work; a bound channel with pending work becomes Bound-Streaming on
    the last descriptor queued. *)
Definition engine_issue_pending (g : dma_engine) : dma_engine :=
  match ch_state g, last (ch_pending g) with
  | Unbound, _ => g
  | _, None => g
  | _, Some d => {| ch_state := BoundStreaming; ch_park := ch_park g;
                    ch_pending := []; ch_active := Some d |}
  end.

(** Modelled from the spec: release unbinds the channel.  The spec gives
    the transition from Bound-Idle only; nothing here makes release stop
    a streaming engine, so [ch_active] is kept. *)
Definition engine_release (g : dma_engine) : dma_engine :=
  {| ch_state := Unbound; ch_park := ch_park g;
     ch_pending := ch_pending g; ch_active := ch_active g |}.

(** Memory as the CPU sees it: a byte per address. *)
Definition heap := Z -> Z.

Definition heap_memset (addr c n : Z) (h : heap) : heap :=
  fun a => if (addr <=? a) && (a <? addr + n) then c mod 256 else h a.

Record world := {
  w_heap : heap;
  w_engine : dma_engine;
  w_log : list event
}.

Definition initial_world (h : heap) : world :=
  {| w_heap := h; w_engine := engine_unbound; w_log := [] |}.

(** What the kernel answers to the driver's requests. *)
Record env := {
  env_fbdev_alloc : bool;          (* devm_kzalloc of the device structure *)
  env_template_alloc : bool;       (* devm_kzalloc of the template *)
  env_fb_virt : Z;                 (* dma_alloc_coherent, 0 is NULL *)
  env_fb_phys : Z;                 (* the dma handle it writes *)
  env_chan : dmaengine.dma_chan_ptr; (* dma_request_slave_channel *)
  env_prep : bool;                 (* dmaengine_prep_interleaved_dma <> NULL *)
  env_cmap : Z;                    (* fb_alloc_cmap *)
  env_register : Z                 (* register_framebuffer *)
}.

(** ** The state monad of kernel calls *)

Definition M (A : Type) : Type := world -> A * world.

Definition ret {A} (a : A) : M A := fun w => (a, w).

Definition bind {A B} (m : M A) (k : A -> M B) : M B :=
  fun w => let (a, w') := m w in k a w'.

Notation "'let*' x ':=' m 'in' k" := (bind m (fun x => k))
  (at level 10, x pattern, m at level 100, k at level 200).
Notation "m ';;' k" := (bind m (fun _ => k))
  (at level 100, k at level 200, right associativity).

Definition emit (ev : event) : M unit :=
  fun w => (tt, {| w_heap := w_heap w; w_engine := w_engine w;
                   w_log := w_log w ++ [ev] |}).

Definition on_engine (f : dma_engine -> dma_engine) : M unit :=
  fun w => (tt, {| w_heap := w_heap w; w_engine := f (w_engine w);
                   w_log := w_log w |}).

Definition on_heap (f : heap -> heap) : M unit :=
  fun w => (tt, {| w_heap := f (w_heap w); w_engine := w_engine w;
                   w_log := w_log w |}).

(** The engine acts on calls made with a real channel only. *)
Definition on_channel (c : dmaengine.dma_chan_ptr)
    (f : dma_engine -> dma_engine) : M unit :=
  match c with
  | dmaengine.chan_ok _ => on_engine f
  | _ => ret tt
  end.

Definition devm_kzalloc (ok : bool) : M bool :=
  emit (E_devm_kzalloc ok) ;; ret ok.

Definition dma_alloc_coherent (e : env) (size : Z) : M (Z * Z) :=
  emit (E_dma_alloc_coherent size (env_fb_virt e) (env_fb_phys e)) ;;
  ret (env_fb_virt e, env_fb_phys e).

Definition memset_io (addr c n : Z) : M unit :=
  emit (E_memset_io addr c n) ;; on_heap (heap_memset addr c n).

Definition dma_request_slave_channel (e : env) (name : string)
    : M dmaengine.dma_chan_ptr :=
  emit (E_dma_request_slave_channel name (env_chan e)) ;;
  on_channel (env_chan e) engine_acquire ;;
  ret (env_chan e).

Definition dmaengine_terminate_all (c : dmaengine.dma_chan_ptr) : M unit :=
  emit (E_dmaengine_terminate_all c) ;; on_channel c engine_terminate_all.

Definition xilinx_vdma_channel_set_config (c : dmaengine.dma_chan_ptr)
    (cfg : dmaengine.xilinx_vdma_config) : M unit :=
  emit (E_xilinx_vdma_channel_set_config c cfg) ;;
  on_channel c (engine_set_config cfg).

(** The descriptor prepared from a template is a copy of it; NULL is
    [None]. *)
Definition dmaengine_prep_interleaved_dma (e : env)
    (c : dmaengine.dma_chan_ptr) (t : dmaengine.dma_interleaved_template)
    (flags : Z) : M (option dmaengine.dma_interleaved_template) :=
  emit (E_dmaengine_prep_interleaved_dma c t flags (env_prep e)) ;;
  ret (if env_prep e then Some t else None).

(** [c] is the channel the descriptor was prepared on (desc->chan). *)
Definition dmaengine_submit (c : dmaengine.dma_chan_ptr)
    (desc : dmaengine.dma_interleaved_template) : M unit :=
  emit (E_dmaengine_submit desc) ;; on_channel c (engine_submit desc).

Definition dma_async_issue_pending (c : dmaengine.dma_chan_ptr) : M unit :=
  emit (E_dma_async_issue_pending c) ;; on_channel c engine_issue_pending.

Definition fb_alloc_cmap (e : env) (len transp : Z) : M Z :=
  emit (E_fb_alloc_cmap len transp (env_cmap e)) ;; ret (env_cmap e).

Definition register_framebuffer (e : env) (i : fb.fb_info) : M Z :=
  emit (E_register_framebuffer i (env_register e)) ;; ret (env_register e).

Definition unregister_framebuffer (i : fb.fb_info) : M unit :=
  emit (E_unregister_framebuffer i).

Definition dma_release_channel (c : dmaengine.dma_chan_ptr) : M unit :=
  emit (E_dma_release_channel c) ;; on_channel c engine_release.

Definition dma_free_coherent (size virt phys : Z) : M unit :=
  emit (E_dma_free_coherent size virt phys).

Definition fb_dealloc_cmap : M unit := emit E_fb_dealloc_cmap.

(** ** vdmafb_setupfb *)

(** [hsize] is an [int] computed from the [u32] product; [numf] and the
    chunk size are [size_t] fields.  The template is written through the
    pointer [fbdev->dma_template] before the descriptor is prepared. *)
Definition vdmafb_setupfb (p : platform) (e : env) (fbdev : vdmafb_dev)
    : M (Z * vdmafb_dev) :=
  let var := fb.var (info fbdev) in
  let old := dma_template fbdev in
  let hsize := s32 (mul32 (fb.xres var) 4) in
  dmaengine_terminate_all (dma fbdev) ;;
  let vdma_config := {| dmaengine.park := 1 |} in
  xilinx_vdma_channel_set_config (dma fbdev) vdma_config ;;
  let dma_template :=
    {| dmaengine.dir := dmaengine.DMA_MEM_TO_DEV;
       dmaengine.src_start := fb_phys fbdev;
       dmaengine.frame_size := 1;
       dmaengine.numf := to_size_t p (fb.yres var);
       dmaengine.src_sgl := true;
       dmaengine.src_inc := true;
       dmaengine.dst_inc := false;
       dmaengine.dst_sgl := false;
       dmaengine.sgl := {| dmaengine.size := to_size_t p hsize;
                           dmaengine.icg := 0 |};
       dmaengine.dst_start := dmaengine.dst_start old |} in
  let fbdev := set_dma_template fbdev dma_template in
  let* desc := dmaengine_prep_interleaved_dma e (dma fbdev) dma_template 0 in
  match desc with
  | None => ret (- ENOMEM, fbdev)
  | Some desc =>
      dmaengine_submit (dma fbdev) desc ;;
      dma_async_issue_pending (dma fbdev) ;;
      ret (0, fbdev)
  end.

(** ** vdmafb_probe and vdmafb_remove *)

(** The two error labels of probe; err_channel_free falls through to
    err_dma_free. *)
Definition err_dma_free (p : platform) (fbdev : vdmafb_dev) (fbsize r : Z)
    : M (Z * option vdmafb_dev) :=
  dma_free_coherent (to_size_t p (s32 (PAGE_ALIGN p fbsize)))
                    (fb_virt fbdev) (fb_phys fbdev) ;;
  ret (r, Some fbdev).

Definition err_channel_free (p : platform) (fbdev : vdmafb_dev) (fbsize r : Z)
    : M (Z * option vdmafb_dev) :=
  dma_release_channel (dma fbdev) ;;
  err_dma_free p fbdev fbsize r.

(** The result is the value probe returns and the device structure it
    left as driver data ([None] when that allocation failed).  The value
    vdmafb_setupfb returns is dropped, and the value of fb_alloc_cmap is
    overwritten by that of register_framebuffer, as in the source. *)
Definition vdmafb_probe (p : platform) (e : env) : M (Z * option vdmafb_dev) :=
  let* ok := devm_kzalloc (env_fbdev_alloc e) in
  if negb ok then ret (- ENOMEM, None) else
  let fbdev := zero_dev in
  let* ok := devm_kzalloc (env_template_alloc e) in
  if negb ok then ret (- ENOMEM, Some fbdev) else
  let fbdev := set_dma_template fbdev dmaengine.zero_template in
  let fbdev := vdmafb_init_var fbdev in
  let fbdev := vdmafb_init_fix fbdev in
  let fbsize := s32 (fb.smem_len (fb.fix_ (info fbdev))) in
  let* (virt, phys) :=
    dma_alloc_coherent e (to_size_t p (s32 (PAGE_ALIGN p fbsize))) in
  let fbdev := set_fb fbdev virt phys in
  if fb_virt fbdev =? 0 then ret (- ENOMEM, Some fbdev) else
  let fbdev := set_smem_start fbdev (to_size_t p (fb_phys fbdev)) in
  let fbdev := set_screen_base fbdev (fb_virt fbdev) in
  memset_io (fb_virt fbdev) 0 (to_size_t p fbsize) ;;
  let* c := dma_request_slave_channel e "axivdma" in
  let fbdev := set_dma fbdev c in
  if dmaengine.IS_ERR_OR_NULL (dma fbdev) then
    let r := s32 (dmaengine.PTR_ERR (dma fbdev)) in
    err_dma_free p fbdev fbsize r
  else
    let* (_, fbdev) := vdmafb_setupfb p e fbdev in
    let* _ := fb_alloc_cmap e 256 0 in
    let* r := register_framebuffer e (info fbdev) in
    if negb (r =? 0) then err_channel_free p fbdev fbsize r
    else ret (0, Some fbdev).

Definition vdmafb_remove (p : platform) (fbdev : vdmafb_dev) : M Z :=
  unregister_framebuffer (info fbdev) ;;
  dma_release_channel (dma fbdev) ;;
  dma_free_coherent
    (to_size_t p (u32 (PAGE_ALIGN p (fb.smem_len (fb.fix_ (info fbdev))))))
    (fb_virt fbdev) (fb_phys fbdev) ;;
  fb_dealloc_cmap ;;
  ret 0.

(** An environment in which every request succeeds. *)
Definition env_ok : env :=
  {| env_fbdev_alloc := true; env_template_alloc := true;
     env_fb_virt := 3221225472; env_fb_phys := 805306368;
     env_chan := dmaengine.chan_ok 1; env_prep := true;
     env_cmap := 0; env_register := 0 |}.

Definition with_chan (e : env) (c : dmaengine.dma_chan_ptr) : env :=
  {| env_fbdev_alloc := env_fbdev_alloc e;
     env_template_alloc := env_template_alloc e;
     env_fb_virt := env_fb_virt e; env_fb_phys := env_fb_phys e;
     env_chan := c; env_prep := env_prep e;
     env_cmap := env_cmap e; env_register := env_register e |}.

Definition with_prep (e : env) (b : bool) : env :=
  {| env_fbdev_alloc := env_fbdev_alloc e;
     env_template_alloc := env_template_alloc e;
     env_fb_virt := env_fb_virt e; env_fb_phys := env_fb_phys e;
     env_chan := env_chan e; env_prep := b;
     env_cmap := env_cmap e; env_register := env_register e |}.

Definition with_register (e : env) (r : Z) : env :=
  {| env_fbdev_alloc := env_fbdev_alloc e;
     env_template_alloc := env_template_alloc e;
     env_fb_virt := env_fb_virt e; env_fb_phys := env_fb_phys e;
     env_chan := env_chan e; env_prep := env_prep e;
     env_cmap := env_cmap e; env_register := r |}.

(** An initial memory with stale content everywhere. *)
Definition heap0 : heap := fun _ => 170.

(** A device structure with the given resolution and the driver's
    32-bit layout. *)
Definition dev_with_res (xres yres : Z) : vdmafb_dev :=
  let var := fb.var (info (vdmafb_init_var zero_dev)) in
  set_var zero_dev
    {| fb.xres := xres; fb.yres := yres;
       fb.xres_virtual := xres; fb.yres_virtual := yres;
       fb.bits_per_pixel := fb.bits_per_pixel var;
       fb.red := fb.red var; fb.green := fb.green var;
       fb.blue := fb.blue var; fb.transp := fb.transp var;
       fb.activate := fb.activate var; fb.accel_flags := fb.accel_flags var;
       fb.pixclock := fb.pixclock var; fb.vmode := fb.vmode var |}.

(** The template vdmafb_setupfb leaves in the device structure. *)
Definition built_template (p : platform) (e : env) (fbdev : vdmafb_dev)
    (w : world) : dmaengine.dma_interleaved_template :=
  dma_template (snd (fst (vdmafb_setupfb p e fbdev w))).

(** ** Reading the log *)

(** The memory contents after the calls of a log: memset_io is the only
    call of the driver that writes memory. *)
Fixpoint heap_of_log (l : list event) (h : heap) : heap :=
  match l with
  | [] => h
  | E_memset_io addr c n :: l' => heap_of_log l' (heap_memset addr c n h)
  | _ :: l' => heap_of_log l' h
  end.

(** Calls that hand the buffer to the DMA engine or to the frame buffer
    core. *)
Definition exposes_buffer (ev : event) : bool :=
  match ev with
  | E_dmaengine_prep_interleaved_dma _ _ _ _ => true
  | E_dmaengine_submit _ => true
  | E_dma_async_issue_pending _ => true
  | E_register_framebuffer _ _ => true
  | _ => false
  end.

(** Scans a log with two flags: [bound], a channel has been acquired and
    not released, and [streaming], pending work has been issued and not
    terminated since.  [need_stop] chooses whether a free of the buffer
    must find the channel stopped as well as released. *)
Fixpoint free_ordered (need_stop streaming bound : bool) (l : list event)
    : bool :=
  match l with
  | [] => true
  | E_dma_request_slave_channel _ (dmaengine.chan_ok _) :: l' =>
      free_ordered need_stop streaming true l'
  | E_dma_async_issue_pending (dmaengine.chan_ok _) :: l' =>
      free_ordered need_stop true bound l'
  | E_dmaengine_terminate_all _ :: l' =>
      free_ordered need_stop false bound l'
  | E_dma_release_channel _ :: l' =>
      free_ordered need_stop streaming false l'
  | E_dma_free_coherent _ _ _ :: l' =>
      negb bound && negb (need_stop && streaming) &&
      free_ordered need_stop streaming bound l'
  | _ :: l' => free_ordered need_stop streaming bound l'
  end.

(** Every free of the buffer comes after the channel was stopped and
    released. *)
Definition free_after_stop_and_detach (l : list event) : bool :=
  free_ordered true false false l.

(** Every free of the buffer comes after the channel was released. *)
Definition free_after_detach (l : list event) : bool :=
  free_ordered false false false l.

(** The teardown calls of a log. *)
Definition is_teardown (ev : event) : bool :=
  match ev with
  | E_unregister_framebuffer _ => true
  | E_dma_release_channel _ => true
  | E_dma_free_coherent _ _ _ => true
  | E_fb_dealloc_cmap => true
  | _ => false
  end.

(** Calls whose outcome is a failure. *)
Definition call_failed (ev : event) : bool :=
  match ev with
  | E_devm_kzalloc ok => negb ok
  | E_dma_alloc_coherent _ virt _ => virt =? 0
  | E_dma_request_slave_channel _ c => dmaengine.IS_ERR_OR_NULL c
  | E_dmaengine_prep_interleaved_dma _ _ _ ok => negb ok
  | E_fb_alloc_cmap _ _ r => negb (r =? 0)
  | E_register_framebuffer _ r => negb (r =? 0)
  | _ => false
  end.

(** The calls that stop the channel, start it, or free the buffer. *)
Definition is_stop_start_or_free (ev : event) : bool :=
  match ev with
  | E_dmaengine_terminate_all _ => true
  | E_dma_async_issue_pending _ => true
  | E_dma_free_coherent _ _ _ => true
  | _ => false
  end.

(** A world in which the channel has been acquired and is idle, and a
    device structure bound to that channel. *)
Definition bound_world (h : heap) : world :=
  {| w_heap := h; w_engine := engine_acquire engine_unbound; w_log := [] |}.

Definition dev_on_channel (xres yres phys c : Z) : vdmafb_dev :=
  set_dma (set_fb (dev_with_res xres yres) 0 phys) (dmaengine.chan_ok c).

(** ** Counting what a log holds *)

(** A buffer is held from a dma_alloc_coherent that returned memory to
    the dma_free_coherent that gives it back. *)
Definition buffer_delta (ev : event) : Z :=
  match ev with
  | E_dma_alloc_coherent _ virt _ => if virt =? 0 then 0 else 1
  | E_dma_free_coherent _ _ _ => -1
  | _ => 0
  end.

(** A channel is held from a lookup that returned one to its release. *)
Definition channel_delta (ev : event) : Z :=
  match ev with
  | E_dma_request_slave_channel _ (dmaengine.chan_ok _) => 1
  | E_dma_release_channel (dmaengine.chan_ok _) => -1
  | _ => 0
  end.

(** A frame buffer is registered from a register_framebuffer that
    returned 0 to unregister_framebuffer. *)
Definition registered_delta (ev : event) : Z :=
  match ev with
  | E_register_framebuffer _ r => if r =? 0 then 1 else 0
  | E_unregister_framebuffer _ => -1
  | _ => 0
  end.

Definition held (delta : event -> Z) (l : list event) : Z :=
  fold_right (fun ev n => delta ev + n) 0 l.

Definition with_cmap (e : env) (r : Z) : env :=
  {| env_fbdev_alloc := env_fbdev_alloc e;
     env_template_alloc := env_template_alloc e;
     env_fb_virt := env_fb_virt e; env_fb_phys := env_fb_phys e;
     env_chan := env_chan e; env_prep := env_prep e;
     env_cmap := r; env_register := env_register e |}.

(** * Properties *)

(** ** Arithmetic of the integer model *)

Lemma u32_small (x : Z) : 0 <= x < 2 ^ 32 -> u32 x = x.
Proof. intros H. unfold u32. apply Z.mod_small. exact H. Qed.

Lemma s32_small (x : Z) : 0 <= x <= INT_MAX -> s32 x = x.
Proof.
  unfold s32, INT_MAX. intros H.
  rewrite Z.mod_small by lia.
  destruct (Z.ltb_spec x (2 ^ 31)); lia.
Qed.

Lemma to_size_t_small (p : platform) (x : Z) :
  platform_ok p -> 0 <= x < 2 ^ 32 -> to_size_t p x = x.
Proof.
  intros [[Hb | Hb] _] H; unfold to_size_t; rewrite Hb;
    apply Z.mod_small; lia.
Qed.

Lemma land_lor_absorb (a b : Z) : Z.land (Z.lor a b) b = b.
Proof.
  apply Z.bits_inj. intros n.
  rewrite Z.land_spec, Z.lor_spec.
  destruct (Z.testbit a n), (Z.testbit b n); reflexivity.
Qed.

Lemma zynq_ok : platform_ok zynq.
Proof. split; [left; reflexivity | exists 12; split; [lia | reflexivity]]. Qed.

Lemma zynqmp_ok : platform_ok zynqmp.
Proof. split; [right; reflexivity | exists 12; split; [lia | reflexivity]]. Qed.

(** The layout installed by vdmafb_init_var keeps every shift count of
    vdmafb_setcolreg below 32. *)
Lemma init_var_shift_counts_defined (fbdev : vdmafb_dev) :
  shift_counts_defined (fb.var (info (vdmafb_init_var fbdev))) = true.
Proof. reflexivity. Qed.

(** ** Palette writes *)

Lemma setcolreg_reject (regno red green blue transp : Z) (fbdev : vdmafb_dev) :
  16 <= u32 regno ->
  vdmafb_setcolreg regno red green blue transp fbdev = (- EINVAL, fbdev).
Proof.
  intros H. unfold vdmafb_setcolreg.
  destruct (Z.leb_spec 16 (u32 regno)); [reflexivity | lia].
Qed.

Lemma setcolreg_accept (regno red green blue transp : Z) (fbdev : vdmafb_dev) :
  u32 regno < 16 ->
  exists value,
    vdmafb_setcolreg regno red green blue transp fbdev =
      (0, set_pseudo_palette fbdev
            (<[Z.to_nat (u32 regno) := value]> (pseudo_palette fbdev))) /\
    (0 < fb.length (fb.transp (fb.var (info fbdev))) ->
     Z.land value (transp_mask (fb.var (info fbdev))) =
       transp_mask (fb.var (info fbdev))).
Proof.
  intros H. unfold vdmafb_setcolreg.
  destruct (Z.leb_spec 16 (u32 regno)); [lia |].
  eexists. split; [reflexivity |].
  intros Hlen.
  destruct (Z.ltb_spec 0 (fb.length (fb.transp (fb.var (info fbdev))))); [| lia].
  unfold or32, transp_mask. apply land_lor_absorb.
Qed.

(** C4. With the fixed 32-bit layout of vdmafb_init_var (red 16, green 8,
    blue 0, transparency 24, all of length 8), writing palette entry 5
    with red 0xFFFF, green 0, blue 0 and transparency 0xFFFF stores
    0xFFFF0000.  And for every input with a valid index: when the
    transparency field has a non-zero length, the value stored has every
    bit of the transparency mask ((1 << length) - 1) << offset set, and
    the outcome does not depend on the transparency intensity passed. *)
Theorem C4_setcolreg_forces_opaque :
  (forall fbdev : vdmafb_dev,
     List.length (pseudo_palette fbdev) = 16%nat ->
     let d := vdmafb_init_var fbdev in
     fst (vdmafb_setcolreg 5 65535 0 0 65535 d) = 0 /\
     pseudo_palette (snd (vdmafb_setcolreg 5 65535 0 0 65535 d)) !! 5%nat
       = Some 4294901760 /\
     transp_mask (fb.var (info d)) = 4278190080) /\
  (forall (regno red green blue transp transp' : Z) (fbdev : vdmafb_dev),
     0 <= regno < 16 ->
     (Z.to_nat regno < List.length (pseudo_palette fbdev))%nat ->
     0 < fb.length (fb.transp (fb.var (info fbdev))) ->
     exists value,
       pseudo_palette (snd (vdmafb_setcolreg regno red green blue transp fbdev))
         !! Z.to_nat regno = Some value /\
       Z.land value (transp_mask (fb.var (info fbdev))) =
         transp_mask (fb.var (info fbdev)) /\
       vdmafb_setcolreg regno red green blue transp' fbdev =
         vdmafb_setcolreg regno red green blue transp fbdev).
Proof.
  split.
  - intros fbdev Hlen d. subst d.
    destruct fbdev as [i ph vi c t pal]. simpl in Hlen.
    do 17 (destruct pal as [| ? pal]; try discriminate Hlen).
    repeat split; reflexivity.
  - intros regno red green blue transp transp' fbdev Hr Hlen Ht.
    assert (Hu : u32 regno = regno) by (apply u32_small; lia).
    destruct (setcolreg_accept regno red green blue transp fbdev)
      as [value [Heq Hmask]]; [lia |].
    exists value. repeat split.
    + rewrite Heq, Hu. simpl. apply list_lookup_insert_eq. exact Hlen.
    + apply Hmask. exact Ht.
Qed.

Lemma C4_setcolreg_forces_opaque_witness :
  exists value,
    pseudo_palette
      (snd (vdmafb_setcolreg 5 65535 0 0 4660 (vdmafb_init_var zero_dev)))
      !! Z.to_nat 5 = Some value /\
    Z.land value (transp_mask (fb.var (info (vdmafb_init_var zero_dev)))) =
      transp_mask (fb.var (info (vdmafb_init_var zero_dev))) /\
    vdmafb_setcolreg 5 65535 0 0 0 (vdmafb_init_var zero_dev) =
      vdmafb_setcolreg 5 65535 0 0 4660 (vdmafb_init_var zero_dev).
Proof.
  apply (proj2 C4_setcolreg_forces_opaque 5 65535 0 0 4660 0
           (vdmafb_init_var zero_dev)).
  - lia.
  - simpl. lia.
  - simpl. lia.
Defined.

(** C5. For every palette index of 16 and above, vdmafb_setcolreg returns
    -EINVAL and leaves the device structure, and so the palette, as it
    was; for every index below 16 it succeeds whatever the four
    intensities are: nothing else is validated. *)
Theorem C5_setcolreg_range_check
    (regno red green blue transp : Z) (fbdev : vdmafb_dev) :
  0 <= regno < 2 ^ 32 ->
  (16 <= regno ->
     vdmafb_setcolreg regno red green blue transp fbdev = (- EINVAL, fbdev) /\
     pseudo_palette (snd (vdmafb_setcolreg regno red green blue transp fbdev))
       = pseudo_palette fbdev) /\
  (regno < 16 ->
     fst (vdmafb_setcolreg regno red green blue transp fbdev) = 0).
Proof.
  intros Hr.
  assert (Hu : u32 regno = regno) by (apply u32_small; exact Hr).
  split; intros H.
  - rewrite setcolreg_reject by lia. split; reflexivity.
  - destruct (setcolreg_accept regno red green blue transp fbdev)
      as [value [Heq _]]; [lia |].
    rewrite Heq. reflexivity.
Qed.

Lemma C5_setcolreg_range_check_witness :
  0 <= 16 < 2 ^ 32 /\
  vdmafb_setcolreg 16 65535 65535 65535 65535 (vdmafb_init_var zero_dev)
    = (- EINVAL, vdmafb_init_var zero_dev) /\
  fst (vdmafb_setcolreg 15 65535 65535 65535 65535 (vdmafb_init_var zero_dev))
    = 0.
Proof.
  split; [lia |]. split.
  - apply (proj1 (C5_setcolreg_range_check 16 65535 65535 65535 65535
                    (vdmafb_init_var zero_dev) ltac:(lia))).
    lia.
  - apply (proj2 (C5_setcolreg_range_check 15 65535 65535 65535 65535
                    (vdmafb_init_var zero_dev) ltac:(lia))).
    lia.
Defined.

(** C10. For every index below 16, a palette write succeeds and changes
    palette entry regno only: every other entry, the number of entries,
    the geometry and layout, the buffer addresses, the channel and the
    descriptor template are as before. *)
Theorem C10_setcolreg_frame
    (regno red green blue transp : Z) (fbdev : vdmafb_dev) :
  0 <= regno < 16 ->
  let r := vdmafb_setcolreg regno red green blue transp fbdev in
  fst r = 0 /\
  (forall i : nat, i <> Z.to_nat regno ->
     pseudo_palette (snd r) !! i = pseudo_palette fbdev !! i) /\
  List.length (pseudo_palette (snd r)) = List.length (pseudo_palette fbdev) /\
  info (snd r) = info fbdev /\
  fb_phys (snd r) = fb_phys fbdev /\
  fb_virt (snd r) = fb_virt fbdev /\
  dma (snd r) = dma fbdev /\
  dma_template (snd r) = dma_template fbdev.
Proof.
  intros Hr r. subst r.
  assert (Hu : u32 regno = regno) by (apply u32_small; lia).
  destruct (setcolreg_accept regno red green blue transp fbdev)
    as [value [Heq _]]; [lia |].
  rewrite Heq, Hu. simpl.
  split; [reflexivity |].
  split.
  - intros i Hi. apply list_lookup_insert_ne. congruence.
  - split; [apply length_insert |]. repeat split.
Qed.

Lemma C10_setcolreg_frame_witness :
  0 <= 5 < 16 /\
  pseudo_palette
    (snd (vdmafb_setcolreg 5 65535 0 0 65535 (vdmafb_init_var zero_dev)))
    !! 4%nat = pseudo_palette (vdmafb_init_var zero_dev) !! 4%nat /\
  dma_template
    (snd (vdmafb_setcolreg 5 65535 0 0 65535 (vdmafb_init_var zero_dev)))
    = dma_template (vdmafb_init_var zero_dev).
Proof.
  split; [lia |].
  pose proof (C10_setcolreg_frame 5 65535 0 0 65535 (vdmafb_init_var zero_dev)
                ltac:(lia)) as H.
  cbv zeta in H.
  destruct H as [_ [Hother [_ [_ [_ [_ [_ Ht]]]]]]].
  split; [apply Hother; discriminate | exact Ht].
Defined.

(** ** The descriptor builder *)

(** The template vdmafb_setupfb builds depends on the geometry, the
    buffer address and the platform only. *)
Lemma built_template_eq (p : platform) (e : env) (fbdev : vdmafb_dev)
    (w : world) :
  built_template p e fbdev w =
    {| dmaengine.src_start := fb_phys fbdev;
       dmaengine.dst_start := dmaengine.dst_start (dma_template fbdev);
       dmaengine.dir := dmaengine.DMA_MEM_TO_DEV;
       dmaengine.src_inc := true;
       dmaengine.dst_inc := false;
       dmaengine.src_sgl := true;
       dmaengine.dst_sgl := false;
       dmaengine.numf := to_size_t p (fb.yres (fb.var (info fbdev)));
       dmaengine.frame_size := 1;
       dmaengine.sgl :=
         {| dmaengine.size :=
              to_size_t p (s32 (mul32 (fb.xres (fb.var (info fbdev))) 4));
            dmaengine.icg := 0 |} |}.
Proof.
  unfold built_template, vdmafb_setupfb, dmaengine_prep_interleaved_dma, bind.
  destruct (dmaengine_terminate_all (dma fbdev) w) as [u1 w1].
  destruct (xilinx_vdma_channel_set_config (dma fbdev) _ w1) as [u2 w2].
  destruct (emit _ w2) as [u3 w3].
  unfold ret.
  destruct (env_prep e).
  - destruct (dmaengine_submit _ _ w3) as [u4 w4].
    destruct (dma_async_issue_pending _ w4) as [u5 w5]. reflexivity.
  - reflexivity.
Qed.

(** C1, as the code has it.  For every geometry with width > 0,
    height > 0 (a [u32]), 32 bits per pixel and width*4 within the range
    of the [int] that holds it (width*4 <= INT_MAX), the template built
    by vdmafb_setupfb has chunk size width*4, frame count height,
    inter-chunk gap 0, frame_size 1, direction memory-to-device, source
    address the buffer's physical address, source increment and source
    scatter-gather on, destination increment and scatter-gather off. *)
Theorem C1_template_of_geometry
    (p : platform) (e : env) (fbdev : vdmafb_dev) (w : world) :
  platform_ok p ->
  0 < fb.xres (fb.var (info fbdev)) ->
  fb.xres (fb.var (info fbdev)) * 4 <= INT_MAX ->
  0 < fb.yres (fb.var (info fbdev)) < 2 ^ 32 ->
  fb.bits_per_pixel (fb.var (info fbdev)) = 32 ->
  let t := built_template p e fbdev w in
  dmaengine.size (dmaengine.sgl t) = fb.xres (fb.var (info fbdev)) * 4 /\
  dmaengine.numf t = fb.yres (fb.var (info fbdev)) /\
  dmaengine.icg (dmaengine.sgl t) = 0 /\
  dmaengine.frame_size t = 1 /\
  dmaengine.dir t = dmaengine.DMA_MEM_TO_DEV /\
  dmaengine.src_start t = fb_phys fbdev /\
  dmaengine.src_inc t = true /\
  dmaengine.src_sgl t = true /\
  dmaengine.dst_inc t = false /\
  dmaengine.dst_sgl t = false.
Proof.
  intros Hp Hx Hmax Hy _ t. subst t.
  rewrite built_template_eq. simpl.
  unfold INT_MAX in Hmax.
  assert (Hm : mul32 (fb.xres (fb.var (info fbdev))) 4 =
               fb.xres (fb.var (info fbdev)) * 4)
    by (unfold mul32; apply u32_small; lia).
  rewrite Hm, s32_small by (unfold INT_MAX; lia).
  rewrite !to_size_t_small by (try exact Hp; lia).
  repeat split.
Qed.

Lemma C1_template_of_geometry_witness :
  let t := built_template zynq env_ok (dev_with_res 800 480)
             (initial_world heap0) in
  dmaengine.size (dmaengine.sgl t) = 800 * 4 /\
  dmaengine.numf t = 480 /\
  dmaengine.icg (dmaengine.sgl t) = 0 /\
  dmaengine.frame_size t = 1 /\
  dmaengine.dir t = dmaengine.DMA_MEM_TO_DEV /\
  dmaengine.src_start t = 0 /\
  dmaengine.src_inc t = true /\
  dmaengine.src_sgl t = true /\
  dmaengine.dst_inc t = false /\
  dmaengine.dst_sgl t = false.
Proof.
  apply (C1_template_of_geometry zynq env_ok (dev_with_res 800 480)
           (initial_world heap0)).
  - exact zynq_ok.
  - simpl. lia.
  - simpl. unfold INT_MAX. lia.
  - simpl. lia.
  - reflexivity.
Defined.

(** C1 as stated fails: at width 2^30 (height 480, 32 bits per pixel)
    the [u32] product width*4 wraps to 0, so the chunk size is 0 on
    32-bit and on 64-bit platforms alike, not width*4 = 2^32. *)
Lemma C1_counterexample_width_wraps :
  let d := dev_with_res 1073741824 480 in
  (0 < fb.xres (fb.var (info d)) < 2 ^ 32 /\
   0 < fb.yres (fb.var (info d)) < 2 ^ 32 /\
   fb.bits_per_pixel (fb.var (info d)) = 32) /\
  fb.xres (fb.var (info d)) * 4 = 4294967296 /\
  dmaengine.size
    (dmaengine.sgl (built_template zynq env_ok d (initial_world heap0))) = 0 /\
  dmaengine.size
    (dmaengine.sgl (built_template zynqmp env_ok d (initial_world heap0))) = 0 /\
  dmaengine.size
    (dmaengine.sgl (built_template zynq env_ok d (initial_world heap0)))
    <> fb.xres (fb.var (info d)) * 4.
Proof.
  cbv zeta. split; [simpl; lia |].
  split; [reflexivity |].
  split; [reflexivity |].
  split; [reflexivity |].
  vm_compute. discriminate.
Qed.

(** ** Configure and start *)

(** What one call of vdmafb_setupfb on a real channel does to the world. *)
Lemma setupfb_run (p : platform) (e : env) (fbdev : vdmafb_dev) (w : world)
    (c : Z) :
  dma fbdev = dmaengine.chan_ok c ->
  let ch := dmaengine.chan_ok c in
  let t := built_template p e fbdev w in
  let g := engine_set_config {| dmaengine.park := 1 |}
             (engine_terminate_all (w_engine w)) in
  let l := w_log w ++
           [E_dmaengine_terminate_all ch;
            E_xilinx_vdma_channel_set_config ch {| dmaengine.park := 1 |};
            E_dmaengine_prep_interleaved_dma ch t 0 (env_prep e)] in
  vdmafb_setupfb p e fbdev w =
    if env_prep e
    then ((0, set_dma_template fbdev t),
          {| w_heap := w_heap w;
             w_engine := engine_issue_pending (engine_submit t g);
             w_log := l ++ [E_dmaengine_submit t;
                            E_dma_async_issue_pending ch] |})
    else ((- ENOMEM, set_dma_template fbdev t),
          {| w_heap := w_heap w; w_engine := g; w_log := l |}).
Proof.
  intros Hc ch t g l. subst ch t g l.
  rewrite built_template_eq.
  unfold vdmafb_setupfb, dmaengine_terminate_all,
    xilinx_vdma_channel_set_config, dmaengine_prep_interleaved_dma,
    dmaengine_submit, dma_async_issue_pending, on_channel, on_engine,
    emit, bind, ret.
  cbn [dma set_dma_template]. rewrite Hc.
  destruct (env_prep e); cbn [w_log w_heap w_engine];
    rewrite <- !app_assoc; reflexivity.
Qed.

Lemma engine_stopped (g : dma_engine) :
  ch_state g <> Unbound ->
  engine_set_config {| dmaengine.park := 1 |} (engine_terminate_all g) =
    {| ch_state := BoundIdle; ch_park := 1; ch_pending := [];
       ch_active := None |}.
Proof.
  intros H. unfold engine_terminate_all.
  destruct (ch_state g); [congruence | reflexivity | reflexivity].
Qed.

Lemma engine_started (t : dmaengine.dma_interleaved_template) :
  engine_issue_pending
    (engine_submit t {| ch_state := BoundIdle; ch_park := 1;
                        ch_pending := []; ch_active := None |}) =
    {| ch_state := BoundStreaming; ch_park := 1; ch_pending := [];
       ch_active := Some t |}.
Proof. reflexivity. Qed.

(** What a call of vdmafb_setupfb does on a bound channel, with the
    template it builds named [t]. *)
Lemma setupfb_outcome (p : platform) (e : env) (fbdev : vdmafb_dev)
    (w : world) (c : Z) :
  dma fbdev = dmaengine.chan_ok c ->
  ch_state (w_engine w) <> Unbound ->
  let ch := dmaengine.chan_ok c in
  let t := built_template p e fbdev w in
  let stopped := {| ch_state := BoundIdle; ch_park := 1; ch_pending := [];
                    ch_active := None |} in
  let l := w_log w ++
           [E_dmaengine_terminate_all ch;
            E_xilinx_vdma_channel_set_config ch {| dmaengine.park := 1 |};
            E_dmaengine_prep_interleaved_dma ch t 0 (env_prep e)] in
  vdmafb_setupfb p e fbdev w =
    if env_prep e
    then ((0, set_dma_template fbdev t),
          {| w_heap := w_heap w;
             w_engine := {| ch_state := BoundStreaming; ch_park := 1;
                            ch_pending := []; ch_active := Some t |};
             w_log := l ++ [E_dmaengine_submit t;
                            E_dma_async_issue_pending ch] |})
    else ((- ENOMEM, set_dma_template fbdev t),
          {| w_heap := w_heap w; w_engine := stopped; w_log := l |}).
Proof.
  intros Hc Hb ch t stopped l. subst ch t stopped l.
  rewrite (setupfb_run p e fbdev w c Hc). cbv zeta.
  rewrite (engine_stopped _ Hb), engine_started. reflexivity.
Qed.

(** C3. On a bound channel vdmafb_setupfb first terminates whatever the
    channel is doing, then sets the parked configuration, then prepares
    the descriptor.  When preparation fails it returns -ENOMEM with
    nothing submitted or issued, and the channel is idle with no pending
    and no active transfer.  When it succeeds it submits the descriptor
    and issues pending work, returns 0, and the channel streams the
    template just built.  A further call, with no stop in between, again
    starts by terminating, before its submit, and ends streaming its own
    template only: after a success (twice in a row) and after a failure
    (retry) alike. *)
Theorem C3_setupfb_sequence
    (p : platform) (e : env) (fbdev : vdmafb_dev) (w : world) (c : Z) :
  dma fbdev = dmaengine.chan_ok c ->
  ch_state (w_engine w) <> Unbound ->
  let ch := dmaengine.chan_ok c in
  let park := {| dmaengine.park := 1 |} in
  let r := vdmafb_setupfb p e fbdev w in
  let t := dma_template (snd (fst r)) in
  let w' := snd r in
  w_log w' =
    w_log w ++
    [E_dmaengine_terminate_all ch;
     E_xilinx_vdma_channel_set_config ch park;
     E_dmaengine_prep_interleaved_dma ch t 0 (env_prep e)] ++
    (if env_prep e
     then [E_dmaengine_submit t; E_dma_async_issue_pending ch]
     else []) /\
  (env_prep e = false ->
     fst (fst r) = - ENOMEM /\
     ch_state (w_engine w') = BoundIdle /\
     ch_pending (w_engine w') = [] /\
     ch_active (w_engine w') = None) /\
  (env_prep e = true ->
     fst (fst r) = 0 /\
     ch_state (w_engine w') = BoundStreaming /\
     ch_active (w_engine w') = Some t /\
     ch_pending (w_engine w') = [] /\
     ch_park (w_engine w') = 1) /\
  (forall (e2 : env) (fbdev2 : vdmafb_dev),
     dma fbdev2 = ch ->
     env_prep e2 = true ->
     let r2 := vdmafb_setupfb p e2 fbdev2 w' in
     let t2 := dma_template (snd (fst r2)) in
     fst (fst r2) = 0 /\
     ch_state (w_engine (snd r2)) = BoundStreaming /\
     ch_active (w_engine (snd r2)) = Some t2 /\
     ch_pending (w_engine (snd r2)) = [] /\
     w_log (snd r2) =
       w_log w' ++
       [E_dmaengine_terminate_all ch;
        E_xilinx_vdma_channel_set_config ch park;
        E_dmaengine_prep_interleaved_dma ch t2 0 true;
        E_dmaengine_submit t2;
        E_dma_async_issue_pending ch]).
Proof.
  intros Hc Hb ch park r t w'. subst ch park t w' r.
  change (dma_template (snd (fst (vdmafb_setupfb p e fbdev w))))
    with (built_template p e fbdev w).
  pose proof (setupfb_outcome p e fbdev w c Hc Hb) as Hrun. cbv zeta in Hrun.
  remember (built_template p e fbdev w) as t eqn:Ht.
  rewrite Hrun. clear Hrun.
  assert (Hsecond :
    forall w1 : world, ch_state (w_engine w1) <> Unbound ->
    forall (e2 : env) (fbdev2 : vdmafb_dev),
      dma fbdev2 = dmaengine.chan_ok c ->
      env_prep e2 = true ->
      let r2 := vdmafb_setupfb p e2 fbdev2 w1 in
      let t2 := dma_template (snd (fst r2)) in
      fst (fst r2) = 0 /\
      ch_state (w_engine (snd r2)) = BoundStreaming /\
      ch_active (w_engine (snd r2)) = Some t2 /\
      ch_pending (w_engine (snd r2)) = [] /\
      w_log (snd r2) =
        w_log w1 ++
        [E_dmaengine_terminate_all (dmaengine.chan_ok c);
         E_xilinx_vdma_channel_set_config (dmaengine.chan_ok c)
           {| dmaengine.park := 1 |};
         E_dmaengine_prep_interleaved_dma (dmaengine.chan_ok c) t2 0 true;
         E_dmaengine_submit t2;
         E_dma_async_issue_pending (dmaengine.chan_ok c)]).
  { intros w1 Hb1 e2 fbdev2 Hc2 He2 r2 t2. subst t2 r2.
    change (dma_template (snd (fst (vdmafb_setupfb p e2 fbdev2 w1))))
      with (built_template p e2 fbdev2 w1).
    pose proof (setupfb_outcome p e2 fbdev2 w1 c Hc2 Hb1) as Hrun2.
    cbv zeta in Hrun2. rewrite He2 in Hrun2.
    remember (built_template p e2 fbdev2 w1) as t2 eqn:Ht2.
    rewrite Hrun2. cbn [fst snd w_log w_engine ch_state ch_active ch_pending].
    rewrite <- app_assoc. repeat split. }
  destruct (env_prep e);
    cbn [fst snd w_log w_engine ch_state ch_active ch_pending ch_park].
  - split; [rewrite <- app_assoc; reflexivity |].
    split; [discriminate |].
    split; [intros _; repeat split |].
    apply Hsecond. cbn. discriminate.
  - split; [rewrite app_nil_r; reflexivity |].
    split; [intros _; repeat split |].
    split; [discriminate |].
    apply Hsecond. cbn. discriminate.
Qed.

Lemma C3_setupfb_sequence_witness :
  let d := dev_on_channel 800 480 805306368 1 in
  let w := bound_world heap0 in
  fst (fst (vdmafb_setupfb zynq (with_prep env_ok false) d w)) = - ENOMEM /\
  ch_state (w_engine (snd (vdmafb_setupfb zynq (with_prep env_ok false) d w)))
    = BoundIdle /\
  ch_state
    (w_engine
       (snd (vdmafb_setupfb zynq env_ok d
               (snd (vdmafb_setupfb zynq (with_prep env_ok false) d w)))))
    = BoundStreaming.
Proof.
  cbv zeta.
  pose proof (C3_setupfb_sequence zynq (with_prep env_ok false)
                (dev_on_channel 800 480 805306368 1) (bound_world heap0) 1
                eq_refl ltac:(discriminate)) as H.
  cbv zeta in H.
  destruct H as [_ [Hfail [_ Hagain]]].
  destruct (Hfail eq_refl) as [Hret [Hidle _]].
  destruct (Hagain env_ok (dev_on_channel 800 480 805306368 1)
              eq_refl eq_refl) as [_ [Hstream _]].
  split; [exact Hret |]. split; [exact Hidle | exact Hstream].
Defined.

(** ** Attach and detach *)

(** Computes with the records and the log, leaving the arithmetic and
    the heap alone. *)
Ltac simp_run :=
  cbn -[to_size_t s32 u32 mul32 PAGE_ALIGN heap_memset Z.eqb Z.mul Z.div
        Z.modulo Z.pow].

(** Unfolds one run of probe (and of remove) down to the kernel
    primitives. *)
Ltac run_driver :=
  unfold vdmafb_probe, vdmafb_remove, err_channel_free, err_dma_free,
    vdmafb_setupfb, devm_kzalloc, dma_alloc_coherent, memset_io,
    dma_request_slave_channel, dmaengine_terminate_all,
    xilinx_vdma_channel_set_config, dmaengine_prep_interleaved_dma,
    dmaengine_submit, dma_async_issue_pending, fb_alloc_cmap,
    register_framebuffer, unregister_framebuffer, dma_release_channel,
    dma_free_coherent, fb_dealloc_cmap, on_channel, on_engine, on_heap,
    emit, bind, ret, initial_world;
  simp_run.

(** Splits a run of probe, after both devm_kzalloc succeeded and the
    buffer was allocated, by the outcome of the channel lookup, of the
    descriptor preparation and of the registration. *)
Ltac probe_cases virt c prep reg :=
  run_driver;
  destruct (Z.eqb_spec virt 0) as [? | _]; [contradiction |];
  destruct c as [| ? | ?]; simp_run;
  try (destruct prep; simp_run; destruct (Z.eqb_spec reg 0); simp_run).

(** Finds every way a concrete log splits as [pre ++ ev :: post]. *)
Ltac walk_log H :=
  lazymatch type of H with
  | ?pre ++ _ :: _ = [] => destruct pre; discriminate H
  | ?pre ++ _ :: _ = _ :: _ =>
      let x := fresh "x" in
      destruct pre as [| x pre]; cbn [app] in H;
      [ injection H as ? ?; subst
      | let Hx := fresh "Hx" in
        injection H as Hx H; subst x; walk_log H ]
  end.

(** C9. When the channel lookup of probe returns NULL (after both
    allocations and the buffer allocation succeeded), probe frees the
    frame buffer memory and returns 0: success is reported although no
    channel was bound, nothing was registered and the buffer is gone. *)
Theorem C9_null_channel_returns_zero (p : platform) (e : env) (h : heap) :
  env_fbdev_alloc e = true ->
  env_template_alloc e = true ->
  env_fb_virt e <> 0 ->
  env_chan e = dmaengine.chan_null ->
  let r := vdmafb_probe p e (initial_world h) in
  let size := to_size_t p (s32 (PAGE_ALIGN p 1536000)) in
  fst (fst r) = 0 /\
  w_log (snd r) =
    [E_devm_kzalloc true; E_devm_kzalloc true;
     E_dma_alloc_coherent size (env_fb_virt e) (env_fb_phys e);
     E_memset_io (env_fb_virt e) 0 (to_size_t p 1536000);
     E_dma_request_slave_channel "axivdma" dmaengine.chan_null;
     E_dma_free_coherent size (env_fb_virt e) (env_fb_phys e)] /\
  ch_state (w_engine (snd r)) = Unbound /\
  (exists d, snd (fst r) = Some d /\ dma d = dmaengine.chan_null).
Proof.
  intros Ha Hb Hv Hc r size. subst r size.
  destruct e as [a b virt phys c prep cmap reg]. simpl in Ha, Hb, Hv, Hc.
  subst a b c. run_driver.
  destruct (Z.eqb_spec virt 0) as [Hz | _]; [contradiction |].
  cbn. repeat split. eexists. split; reflexivity.
Qed.

Lemma C9_null_channel_returns_zero_witness :
  let e := with_chan env_ok dmaengine.chan_null in
  let r := vdmafb_probe zynq e (initial_world heap0) in
  fst (fst r) = 0 /\
  w_log (snd r) =
    [E_devm_kzalloc true; E_devm_kzalloc true;
     E_dma_alloc_coherent 1536000 3221225472 805306368;
     E_memset_io 3221225472 0 1536000;
     E_dma_request_slave_channel "axivdma" dmaengine.chan_null;
     E_dma_free_coherent 1536000 3221225472 805306368] /\
  ch_state (w_engine (snd r)) = Unbound.
Proof.
  cbv zeta.
  pose proof (C9_null_channel_returns_zero zynq
                (with_chan env_ok dmaengine.chan_null) heap0
                eq_refl eq_refl ltac:(discriminate) eq_refl) as H.
  cbv zeta in H.
  destruct H as [Hret [Hlog [Hstate _]]].
  split; [exact Hret |]. split; [exact Hlog | exact Hstate].
Defined.

Lemma heap_memset_zero (a n i : Z) (h : heap) :
  0 <= i < n -> heap_memset a 0 n h (a + i) = 0.
Proof.
  intros H. unfold heap_memset.
  destruct (Z.leb_spec a (a + i)); [| lia].
  destruct (Z.ltb_spec (a + i) (a + n)); [| lia].
  reflexivity.
Qed.

(** The size probe passes to memset_io is the frame buffer size. *)
Lemma probe_memset_size (p : platform) :
  platform_ok p ->
  to_size_t p (s32 (mul32 (mul32 800 (32 / 8)) 480)) = 800 * 4 * 480.
Proof.
  intros Hp. change (s32 (mul32 (mul32 800 (32 / 8)) 480)) with 1536000.
  rewrite to_size_t_small by (try exact Hp; lia). reflexivity.
Qed.

(** C7. The geometry fixed by vdmafb_init_var is 800x480 at 32 bits per
    pixel; vdmafb_init_fix computes a frame buffer of 800*4*480 =
    1,536,000 bytes, and the template vdmafb_setupfb builds for it has
    frame count 480, chunk size 3200 and inter-chunk gap 0.  These are
    the size and the template of every run of probe that reaches
    vdmafb_setupfb. *)
Theorem C7_fixed_geometry
    (p : platform) (e : env) (d : vdmafb_dev) (w : world) (h : heap) :
  platform_ok p ->
  let fbdev := vdmafb_init_fix (vdmafb_init_var d) in
  let t := built_template p e fbdev w in
  (fb.xres (fb.var (info fbdev)) = 800 /\
   fb.yres (fb.var (info fbdev)) = 480 /\
   fb.bits_per_pixel (fb.var (info fbdev)) = 32) /\
  fb.smem_len (fb.fix_ (info fbdev)) = 800 * 4 * 480 /\
  fb.smem_len (fb.fix_ (info fbdev)) = 1536000 /\
  (dmaengine.numf t = 480 /\
   dmaengine.size (dmaengine.sgl t) = 3200 /\
   dmaengine.icg (dmaengine.sgl t) = 0) /\
  (forall ch : Z,
     env_fbdev_alloc e = true ->
     env_template_alloc e = true ->
     env_fb_virt e <> 0 ->
     env_chan e = dmaengine.chan_ok ch ->
     exists d' : vdmafb_dev,
       snd (fst (vdmafb_probe p e (initial_world h))) = Some d' /\
       fb.smem_len (fb.fix_ (info d')) = 1536000 /\
       dmaengine.numf (dma_template d') = 480 /\
       dmaengine.size (dmaengine.sgl (dma_template d')) = 3200 /\
       dmaengine.icg (dmaengine.sgl (dma_template d')) = 0).
Proof.
  intros Hp fbdev t. subst t fbdev.
  assert (Hnumf : to_size_t p 480 = 480)
    by (apply to_size_t_small; [exact Hp | lia]).
  assert (Hsize : to_size_t p (s32 (mul32 800 4)) = 3200)
    by (change (s32 (mul32 800 4)) with 3200;
        apply to_size_t_small; [exact Hp | lia]).
  rewrite built_template_eq. simpl.
  split; [repeat split |].
  split; [reflexivity |].
  split; [reflexivity |].
  split; [split; [exact Hnumf | split; [exact Hsize | reflexivity]] |].
  intros ch Ha Hb Hv Hc.
  destruct e as [a b virt phys c prep cmap reg]. simpl in Ha, Hb, Hv, Hc.
  subst a b c. run_driver.
  destruct (Z.eqb_spec virt 0); [contradiction |].
  simp_run.
  destruct prep; simp_run; destruct (Z.eqb_spec reg 0); simp_run;
    eexists; (split; [reflexivity |]); simp_run;
    rewrite Hnumf, Hsize; repeat split.
Qed.

Lemma C7_fixed_geometry_witness :
  let fbdev := vdmafb_init_fix (vdmafb_init_var zero_dev) in
  let t := built_template zynq env_ok fbdev (initial_world heap0) in
  fb.smem_len (fb.fix_ (info fbdev)) = 800 * 4 * 480 /\
  (dmaengine.numf t = 480 /\
   dmaengine.size (dmaengine.sgl t) = 3200 /\
   dmaengine.icg (dmaengine.sgl t) = 0) /\
  exists d' : vdmafb_dev,
    snd (fst (vdmafb_probe zynq env_ok (initial_world heap0))) = Some d' /\
    fb.smem_len (fb.fix_ (info d')) = 1536000 /\
    dmaengine.numf (dma_template d') = 480 /\
    dmaengine.size (dmaengine.sgl (dma_template d')) = 3200 /\
    dmaengine.icg (dmaengine.sgl (dma_template d')) = 0.
Proof.
  cbv zeta.
  pose proof (C7_fixed_geometry zynq env_ok zero_dev (initial_world heap0)
                heap0 zynq_ok) as H.
  cbv zeta in H.
  destruct H as [_ [Hlen [_ [Ht Hprobe]]]].
  split; [exact Hlen |]. split; [exact Ht |].
  apply (Hprobe 1); [reflexivity | reflexivity | discriminate | reflexivity].
Defined.

(** C6. When the buffer allocation of probe succeeds, memset_io over
    stride*height = 800*4*480 bytes is the call right after the
    allocation; at every later call that hands the buffer to the DMA
    engine (prepare, submit, issue) or to the frame buffer core
    (register) every byte of that region reads zero, whatever the memory
    held before, and so does it when probe returns. *)
Theorem C6_buffer_zeroed_before_exposure
    (p : platform) (e : env) (h : heap) :
  platform_ok p ->
  env_fbdev_alloc e = true ->
  env_template_alloc e = true ->
  env_fb_virt e <> 0 ->
  let r := vdmafb_probe p e (initial_world h) in
  let virt := env_fb_virt e in
  let n := 800 * 4 * 480 in
  (exists d, snd (fst r) = Some d /\ fb_virt d = virt /\
     fb.line_length (fb.fix_ (info d)) * fb.yres (fb.var (info d)) = n) /\
  (exists size post,
     w_log (snd r) =
       [E_devm_kzalloc true; E_devm_kzalloc true;
        E_dma_alloc_coherent size virt (env_fb_phys e);
        E_memset_io virt 0 n] ++ post) /\
  (forall pre ev post,
     w_log (snd r) = pre ++ ev :: post ->
     exposes_buffer ev = true ->
     forall i, 0 <= i < n -> heap_of_log pre h (virt + i) = 0) /\
  (forall i, 0 <= i < n -> w_heap (snd r) (virt + i) = 0).
Proof.
  intros Hp Ha Hb Hv r virt0 n. subst r virt0 n.
  destruct e as [a b virt phys c prep cmap reg]. simpl in Ha, Hb, Hv.
  subst a b. cbn [env_fb_virt env_fb_phys].
  pose proof (probe_memset_size p Hp) as Hn.
  repeat split.
  - probe_cases virt c prep reg; eexists; repeat split.
  - probe_cases virt c prep reg; rewrite Hn; do 2 eexists; reflexivity.
  - intros pre ev post Hl Hexp i Hi. revert Hl.
    probe_cases virt c prep reg;
      intros Hl; symmetry in Hl; walk_log Hl;
      try discriminate Hexp;
      cbn [heap_of_log]; rewrite Hn; apply heap_memset_zero; exact Hi.
  - intros i Hi.
    probe_cases virt c prep reg;
      rewrite Hn; apply heap_memset_zero; exact Hi.
Qed.

Lemma C6_buffer_zeroed_before_exposure_witness :
  let r := vdmafb_probe zynq env_ok (initial_world heap0) in
  heap0 (env_fb_virt env_ok + 1535999) = 170 /\
  w_heap (snd r) (env_fb_virt env_ok + 1535999) = 0.
Proof.
  cbv zeta. split; [reflexivity |].
  pose proof (C6_buffer_zeroed_before_exposure zynq env_ok heap0 zynq_ok
                eq_refl eq_refl ltac:(discriminate)) as H.
  cbv zeta in H.
  destruct H as [_ [_ [_ Hfinal]]].
  apply Hfinal. lia.
Defined.

(** The error paths of probe that do unwind: a failed allocation returns
    -ENOMEM with nothing acquired before it; an encoded error from the
    channel lookup frees the buffer and is returned; a failed
    registration releases the channel, then frees the buffer, and its
    error is returned. *)
Lemma probe_error_paths (p : platform) (e : env) (h : heap) :
  let r := vdmafb_probe p e (initial_world h) in
  let size := to_size_t p (s32 (PAGE_ALIGN p 1536000)) in
  (env_fbdev_alloc e = false ->
     fst r = (- ENOMEM, None) /\ w_log (snd r) = [E_devm_kzalloc false]) /\
  (env_fbdev_alloc e = true -> env_template_alloc e = false ->
     fst (fst r) = - ENOMEM /\
     w_log (snd r) = [E_devm_kzalloc true; E_devm_kzalloc false]) /\
  (env_fbdev_alloc e = true -> env_template_alloc e = true ->
   env_fb_virt e = 0 ->
     fst (fst r) = - ENOMEM /\
     List.filter is_teardown (w_log (snd r)) = []) /\
  (forall err,
   env_fbdev_alloc e = true -> env_template_alloc e = true ->
   env_fb_virt e <> 0 -> env_chan e = dmaengine.chan_err err ->
     fst (fst r) = s32 err /\
     List.filter is_teardown (w_log (snd r)) =
       [E_dma_free_coherent size (env_fb_virt e) (env_fb_phys e)]) /\
  (forall ch,
   env_fbdev_alloc e = true -> env_template_alloc e = true ->
   env_fb_virt e <> 0 -> env_chan e = dmaengine.chan_ok ch ->
   env_register e <> 0 ->
     fst (fst r) = env_register e /\
     List.filter is_teardown (w_log (snd r)) =
       [E_dma_release_channel (dmaengine.chan_ok ch);
        E_dma_free_coherent size (env_fb_virt e) (env_fb_phys e)] /\
     ch_state (w_engine (snd r)) = Unbound).
Proof.
  intros r size. subst r size.
  destruct e as [a b virt phys c prep cmap reg]. cbn [env_fbdev_alloc
    env_template_alloc env_fb_virt env_fb_phys env_chan env_register].
  repeat split.
  - subst a. reflexivity.
  - subst a. reflexivity.
  - subst a b. reflexivity.
  - subst a b. reflexivity.
  - subst a b virt. reflexivity.
  - subst a b virt. reflexivity.
  - subst a b c. run_driver.
    destruct (Z.eqb_spec virt 0); [contradiction | reflexivity].
  - subst a b c. run_driver.
    destruct (Z.eqb_spec virt 0); [contradiction | reflexivity].
  - subst a b c. run_driver.
    destruct (Z.eqb_spec virt 0); [contradiction |].
    simp_run. destruct prep; simp_run;
      (destruct (Z.eqb_spec reg 0); [contradiction | reflexivity]).
  - subst a b c. run_driver.
    destruct (Z.eqb_spec virt 0); [contradiction |].
    simp_run. destruct prep; simp_run;
      (destruct (Z.eqb_spec reg 0); [contradiction | reflexivity]).
  - subst a b c. run_driver.
    destruct (Z.eqb_spec virt 0); [contradiction |].
    simp_run. destruct prep; simp_run;
      (destruct (Z.eqb_spec reg 0); [contradiction | reflexivity]).
Qed.

(** C2 does not hold of the code.  When the descriptor preparation inside
    vdmafb_setupfb fails (every other request succeeding), a step of the
    attach sequence has failed, yet probe drops the -ENOMEM that
    vdmafb_setupfb returns: it goes on to register the frame buffer and
    returns 0, with no teardown call at all and the channel bound but
    idle.  And when registration fails after fb_alloc_cmap succeeded, the
    teardown releases the channel and frees the buffer but never calls
    fb_dealloc_cmap. *)
Theorem C2_probe_drops_setupfb_failure :
  let e := with_prep env_ok false in
  let r := vdmafb_probe zynq e (initial_world heap0) in
  let r' := vdmafb_probe zynq (with_register env_ok (- ENOMEM))
              (initial_world heap0) in
  (existsb call_failed (w_log (snd r)) = true /\
   fst (fst r) = 0 /\
   List.filter is_teardown (w_log (snd r)) = [] /\
   existsb (fun ev => match ev with
                      | E_register_framebuffer _ 0 => true
                      | _ => false
                      end) (w_log (snd r)) = true /\
   ch_state (w_engine (snd r)) = BoundIdle /\
   ch_active (w_engine (snd r)) = None) /\
  (fst (fst r') = - ENOMEM /\
   existsb (fun ev => match ev with
                      | E_fb_alloc_cmap _ _ 0 => true
                      | _ => false
                      end) (w_log (snd r')) = true /\
   List.filter is_teardown (w_log (snd r')) =
     [E_dma_release_channel (dmaengine.chan_ok 1);
      E_dma_free_coherent 1536000 3221225472 805306368]).
Proof. vm_compute. repeat split. Qed.

(** What vdmafb_remove does, whatever state the device is in. *)
Lemma remove_run (p : platform) (fbdev : vdmafb_dev) (w : world) :
  vdmafb_remove p fbdev w =
    (0, {| w_heap := w_heap w;
           w_engine := match dma fbdev with
                       | dmaengine.chan_ok _ => engine_release (w_engine w)
                       | _ => w_engine w
                       end;
           w_log := w_log w ++
             [E_unregister_framebuffer (info fbdev);
              E_dma_release_channel (dma fbdev);
              E_dma_free_coherent
                (to_size_t p
                   (u32 (PAGE_ALIGN p (fb.smem_len (fb.fix_ (info fbdev))))))
                (fb_virt fbdev) (fb_phys fbdev);
              E_fb_dealloc_cmap] |}).
Proof.
  run_driver.
  destruct (dma fbdev); simp_run; rewrite <- !app_assoc; reflexivity.
Qed.

(** C8, as the code has it.  In every run of probe, and in every run of
    probe followed by remove, the buffer is freed only when no channel
    is held: never acquired, or released before.  And remove makes its
    four calls unconditionally and in this order: unregister the frame
    buffer, release the channel, free the buffer, free the colour map. *)
Theorem C8_free_after_release (p : platform) (e : env) (h : heap) :
  let r := vdmafb_probe p e (initial_world h) in
  free_after_detach (w_log (snd r)) = true /\
  (forall (fbdev : vdmafb_dev) (w : world),
     fst (vdmafb_remove p fbdev w) = 0 /\
     w_log (snd (vdmafb_remove p fbdev w)) =
       w_log w ++
       [E_unregister_framebuffer (info fbdev);
        E_dma_release_channel (dma fbdev);
        E_dma_free_coherent
          (to_size_t p
             (u32 (PAGE_ALIGN p (fb.smem_len (fb.fix_ (info fbdev))))))
          (fb_virt fbdev) (fb_phys fbdev);
        E_fb_dealloc_cmap]) /\
  (forall d : vdmafb_dev,
     snd (fst r) = Some d ->
     free_after_detach (w_log (snd (vdmafb_remove p d (snd r)))) = true).
Proof.
  intros r. subst r.
  split; [| split].
  - destruct e as [a b virt phys c prep cmap reg].
    destruct a; [| reflexivity].
    destruct b; [| reflexivity].
    run_driver.
    destruct (Z.eqb_spec virt 0); [reflexivity |].
    destruct c as [| ? | ?]; simp_run; try reflexivity.
    destruct prep; simp_run; destruct (Z.eqb_spec reg 0); reflexivity.
  - intros fbdev w. rewrite remove_run. split; reflexivity.
  - intros d Hd. rewrite remove_run. cbn [snd w_log].
    revert Hd.
    destruct e as [a b virt phys c prep cmap reg].
    destruct a; [| discriminate].
    destruct b; [| intros Hd; injection Hd as <-; reflexivity].
    run_driver.
    destruct (Z.eqb_spec virt 0);
      [intros Hd; injection Hd as <-; reflexivity |].
    destruct c as [| ? | ?]; simp_run;
      try (intros Hd; injection Hd as <-; reflexivity).
    destruct prep; simp_run; destruct (Z.eqb_spec reg 0); simp_run;
      intros Hd; injection Hd as <-; reflexivity.
Qed.

Lemma C8_free_after_release_witness :
  let r := vdmafb_probe zynq env_ok (initial_world heap0) in
  exists d : vdmafb_dev,
    snd (fst r) = Some d /\
    free_after_detach (w_log (snd (vdmafb_remove zynq d (snd r)))) = true.
Proof.
  cbv zeta.
  pose proof (C8_free_after_release zynq env_ok heap0) as H.
  cbv zeta in H.
  destruct H as [_ [_ Hafter]].
  eexists. split; [reflexivity |].
  apply Hafter. reflexivity.
Defined.

(** C8 as stated fails: after a successful probe the channel is
    streaming; remove then unregisters, releases the channel and frees
    the buffer, and the only dmaengine_terminate_all of the whole run is
    the one inside vdmafb_setupfb, before the transfer was started: the
    buffer is freed with no stop since the start. *)
Lemma C8_counterexample_free_without_stop :
  let r := vdmafb_probe zynq env_ok (initial_world heap0) in
  exists d : vdmafb_dev,
    snd (fst r) = Some d /\
    fst (fst r) = 0 /\
    ch_state (w_engine (snd r)) = BoundStreaming /\
    let l := w_log (snd (vdmafb_remove zynq d (snd r))) in
    List.filter is_stop_start_or_free l =
      [E_dmaengine_terminate_all (dmaengine.chan_ok 1);
       E_dma_async_issue_pending (dmaengine.chan_ok 1);
       E_dma_free_coherent 1536000 3221225472 805306368] /\
    free_after_stop_and_detach l = false.
Proof.
  cbv zeta. eexists. split; [reflexivity |].
  vm_compute. repeat split.
Qed.

(** * Further properties of the driver *)

(** ** Palette writes: the packed value *)

Lemma u32_range (x : Z) : 0 <= u32 x < 2 ^ 32.
Proof. unfold u32. apply Z.mod_pos_bound. lia. Qed.

Lemma lor_u32_range (a b : Z) :
  0 <= a < 2 ^ 32 -> 0 <= b < 2 ^ 32 -> 0 <= Z.lor a b < 2 ^ 32.
Proof.
  intros Ha Hb.
  assert (H : Z.lor a b = Z.lor a b mod 2 ^ 32).
  { rewrite <- (Z.land_ones (Z.lor a b)) by lia.
    rewrite Z.land_lor_distr_l, !Z.land_ones by lia.
    rewrite !Z.mod_small by lia. reflexivity. }
  rewrite H. apply Z.mod_pos_bound. lia.
Qed.

(** A value below 2^n OR'd under a multiple of 2^n adds up. *)
Lemma lor_disjoint_add (hi lo n : Z) :
  0 <= n -> 0 <= lo < 2 ^ n -> hi mod 2 ^ n = 0 -> Z.lor hi lo = hi + lo.
Proof.
  intros Hn Hlo Hhi. symmetry. apply Z.add_nocarry_lor.
  apply Z.bits_inj'. intros i Hi.
  rewrite Z.land_spec, Z.bits_0.
  destruct (Z.lt_ge_cases i n) as [Hlt | Hge].
  - rewrite <- (Z.mod_pow2_bits_low hi n i) by lia.
    rewrite Hhi, Z.bits_0. reflexivity.
  - rewrite <- (Z.mod_small lo (2 ^ n)) by lia.
    rewrite Z.mod_pow2_bits_high by lia.
    apply andb_false_r.
Qed.

(** The value vdmafb_setcolreg stores with the driver's layout, for
    intensities of type [u_int]. *)
Lemma setcolreg_fixed_layout
    (regno red green blue transp : Z) (fbdev : vdmafb_dev) :
  0 <= regno < 16 ->
  0 <= red < 2 ^ 32 -> 0 <= green < 2 ^ 32 -> 0 <= blue < 2 ^ 32 ->
  vdmafb_setcolreg regno red green blue transp (vdmafb_init_var fbdev) =
    (0, set_pseudo_palette (vdmafb_init_var fbdev)
          (<[Z.to_nat regno :=
               Z.lor (Z.lor (Z.lor (u32 (Z.shiftl (Z.shiftr red 8) 16))
                                   (u32 (Z.shiftl (Z.shiftr green 8) 8)))
                            (u32 (Z.shiftl (Z.shiftr blue 8) 0)))
                     4278190080]> (pseudo_palette fbdev))).
Proof.
  intros Hr Hred Hgreen Hblue.
  unfold vdmafb_setcolreg.
  rewrite (u32_small regno) by lia.
  destruct (Z.leb_spec 16 regno); [lia |].
  cbn [vdmafb_init_var set_var set_info info pseudo_palette fb.var fb.red
       fb.green fb.blue fb.transp fb.offset fb.length].
  change (sub32 16 8) with 8.
  change (0 <? 8) with true. cbv iota.
  change (shl32 (u32 (s32 (Z.shiftl 1 8) - 1)) 24) with 4278190080.
  unfold shr32, shl32, or32.
  rewrite !u32_small with (x := red) by lia.
  rewrite !u32_small with (x := green) by lia.
  rewrite !u32_small with (x := blue) by lia.
  reflexivity.
Qed.

(** With the driver's layout and 16-bit intensities the packed value is
    0xFF000000 + (red/256)*2^16 + (green/256)*2^8 + blue/256, and reading
    each field back at its offset and length gives the top eight bits of
    the intensity written, and 255 for the transparency field. *)
Theorem setcolreg_pack_roundtrip
    (regno red green blue transp : Z) (fbdev : vdmafb_dev) :
  0 <= regno < 16 ->
  List.length (pseudo_palette fbdev) = 16%nat ->
  0 <= red < 65536 -> 0 <= green < 65536 -> 0 <= blue < 65536 ->
  let d := vdmafb_init_var fbdev in
  let var := fb.var (info d) in
  let field := fun (bf : fb.fb_bitfield) (v : Z) =>
    Z.land (Z.shiftr v (fb.offset bf)) (Z.ones (fb.length bf)) in
  exists value,
    pseudo_palette (snd (vdmafb_setcolreg regno red green blue transp d))
      !! Z.to_nat regno = Some value /\
    value = 4278190080 + (red / 256) * 65536 + (green / 256) * 256
            + blue / 256 /\
    field (fb.red var) value = red / 256 /\
    field (fb.green var) value = green / 256 /\
    field (fb.blue var) value = blue / 256 /\
    field (fb.transp var) value = 255.
Proof.
  intros Hr Hlen Hred Hgreen Hblue d var field. subst d var field.
  rewrite setcolreg_fixed_layout by lia.
  cbn [snd pseudo_palette set_pseudo_palette vdmafb_init_var set_var set_info
       info fb.var fb.red fb.green fb.blue fb.transp fb.offset fb.length].
  eexists. split; [apply list_lookup_insert_eq; lia |].
  rewrite !Z.shiftr_div_pow2, !Z.shiftl_mul_pow2 by lia.
  change (2 ^ 8) with 256. change (2 ^ 16) with 65536. change (2 ^ 0) with 1.
  assert (Hcr : 0 <= red / 256 < 256)
    by (split; [apply Z.div_pos | apply Z.div_lt_upper_bound]; lia).
  assert (Hcg : 0 <= green / 256 < 256)
    by (split; [apply Z.div_pos | apply Z.div_lt_upper_bound]; lia).
  assert (Hcb : 0 <= blue / 256 < 256)
    by (split; [apply Z.div_pos | apply Z.div_lt_upper_bound]; lia).
  rewrite !u32_small by lia.
  set (cr := red / 256) in *. set (cg := green / 256) in *.
  set (cb := blue / 256) in *.
  assert (Hval :
    Z.lor (Z.lor (Z.lor (cr * 65536) (cg * 256)) (cb * 1)) 4278190080 =
    4278190080 + cr * 65536 + cg * 256 + cb).
  { rewrite (lor_disjoint_add (cr * 65536) (cg * 256) 16)
      by (try apply Z_mod_mult; lia).
    rewrite (lor_disjoint_add (cr * 65536 + cg * 256) (cb * 1) 8);
      [| lia | lia
       | replace (cr * 65536 + cg * 256) with ((cr * 256 + cg) * 2 ^ 8) by lia;
         apply Z_mod_mult ].
    rewrite Z.lor_comm.
    rewrite (lor_disjoint_add 4278190080 _ 24);
      [lia | lia | lia | reflexivity]. }
  rewrite Hval. split; [reflexivity |].
  rewrite ?Z.shiftr_div_pow2, ?Z.land_ones by lia.
  change (2 ^ 8) with 256. change (2 ^ 16) with 65536. change (2 ^ 0) with 1.
  change (2 ^ 24) with 16777216.
  repeat split; Z.div_mod_to_equations; lia.
Qed.

Lemma setcolreg_pack_roundtrip_witness :
  exists value,
    pseudo_palette
      (snd (vdmafb_setcolreg 3 4660 22136 39612 0 (vdmafb_init_var zero_dev)))
      !! Z.to_nat 3 = Some value /\
    value = 4278190080 + (4660 / 256) * 65536 + (22136 / 256) * 256
            + 39612 / 256.
Proof.
  pose proof (setcolreg_pack_roundtrip 3 4660 22136 39612 0 zero_dev
                ltac:(lia) eq_refl ltac:(lia) ltac:(lia) ltac:(lia)) as H.
  cbv zeta in H.
  destruct H as [value [Hv [Heq _]]].
  exists value. split; [exact Hv | exact Heq].
Defined.

(** The fields are not masked to their length.  For intensities of the
    full [u_int] range the red field of the stored pixel also carries
    bits 16..23 of green and bits 24..31 of blue, the green field also
    carries bits 16..23 of blue, and the transparency field is all ones. *)
Theorem setcolreg_fields_unmasked
    (regno red green blue transp : Z) (fbdev : vdmafb_dev) :
  0 <= regno < 16 ->
  List.length (pseudo_palette fbdev) = 16%nat ->
  0 <= red < 2 ^ 32 -> 0 <= green < 2 ^ 32 -> 0 <= blue < 2 ^ 32 ->
  exists value,
    pseudo_palette
      (snd (vdmafb_setcolreg regno red green blue transp
              (vdmafb_init_var fbdev)))
      !! Z.to_nat regno = Some value /\
    Z.land (Z.shiftr value 16) (Z.ones 8) =
      Z.land (Z.lor (Z.lor (Z.shiftr red 8) (Z.shiftr green 16))
                    (Z.shiftr blue 24)) (Z.ones 8) /\
    Z.land (Z.shiftr value 8) (Z.ones 8) =
      Z.land (Z.lor (Z.shiftr green 8) (Z.shiftr blue 16)) (Z.ones 8) /\
    Z.land value (Z.ones 8) = Z.land (Z.shiftr blue 8) (Z.ones 8) /\
    Z.land (Z.shiftr value 24) (Z.ones 8) = Z.ones 8.
Proof.
  intros Hr Hlen Hred Hgreen Hblue.
  rewrite setcolreg_fixed_layout by lia.
  cbn [snd pseudo_palette set_pseudo_palette].
  eexists. split; [apply list_lookup_insert_eq; lia |].
  change 4278190080 with (Z.shiftl (Z.ones 8) 24).
  repeat split; apply Z.bits_inj'; intros i Hi;
    rewrite ?Z.land_spec;
    (destruct (Z.lt_ge_cases i 8) as [Hlt | Hge];
     [ rewrite !(Z.ones_spec_low 8 i) by lia
     | rewrite !(Z.ones_spec_high 8 i) by lia;
       rewrite ?andb_false_r; reflexivity ]);
    rewrite ?andb_true_r;
    unfold u32;
    repeat first
      [ rewrite Z.lor_spec
      | rewrite Z.mod_pow2_bits_low by lia
      | match goal with
        | |- context [Z.testbit (Z.shiftr ?a ?k) ?n] =>
            rewrite (Z.shiftr_spec a k n) by lia
        | |- context [Z.testbit (Z.shiftl ?a ?k) ?n] =>
            rewrite (Z.shiftl_spec a k n) by lia
        | |- context [Z.testbit ?a ?n] =>
            rewrite (Z.testbit_neg_r a n) by lia
        end ];
    rewrite ?orb_false_r, ?orb_false_l;
    try (replace (i + 24 - 24) with i by lia;
         rewrite (Z.ones_spec_low 8 i) by lia; apply orb_true_r);
    repeat match goal with
           | |- orb _ _ = orb _ _ => f_equal
           | |- Z.testbit ?a _ = Z.testbit ?a _ => f_equal; lia
           end.
Qed.

Lemma setcolreg_fields_unmasked_witness :
  exists value,
    pseudo_palette
      (snd (vdmafb_setcolreg 3 0 65536 0 0 (vdmafb_init_var zero_dev)))
      !! Z.to_nat 3 = Some value /\
    Z.land (Z.shiftr value 16) (Z.ones 8) =
      Z.land (Z.lor (Z.lor (Z.shiftr 0 8) (Z.shiftr 65536 16))
                    (Z.shiftr 0 24)) (Z.ones 8).
Proof.
  pose proof (setcolreg_fields_unmasked 3 0 65536 0 0 zero_dev
                ltac:(lia) eq_refl ltac:(lia) ltac:(lia) ltac:(lia)) as H.
  destruct H as [value [Hv [Hred _]]].
  exists value. split; [exact Hv | exact Hred].
Defined.

(** ** Palette writes: composition and invariants *)

(** Two palette writes compose as writes to an array do: a second write
    to the same index replaces the first, writes to different indices
    commute, and repeating a write changes nothing. *)
Theorem setcolreg_writes_compose
    (i j r1 g1 b1 t1 r2 g2 b2 t2 : Z) (fbdev : vdmafb_dev) :
  0 <= i < 16 -> 0 <= j < 16 ->
  let w1 := fun d => snd (vdmafb_setcolreg i r1 g1 b1 t1 d) in
  let w2 := fun d => snd (vdmafb_setcolreg j r2 g2 b2 t2 d) in
  (i = j -> w2 (w1 fbdev) = w2 fbdev) /\
  (i <> j -> w2 (w1 fbdev) = w1 (w2 fbdev)) /\
  w1 (w1 fbdev) = w1 fbdev.
Proof.
  intros Hi Hj w1 w2. subst w1 w2. cbv beta.
  unfold vdmafb_setcolreg.
  rewrite (u32_small i), (u32_small j) by lia.
  destruct (Z.leb_spec 16 i); [lia |].
  destruct (Z.leb_spec 16 j); [lia |].
  cbn [snd info pseudo_palette set_pseudo_palette fb_phys fb_virt dma
       dma_template].
  unfold set_pseudo_palette.
  cbn [info pseudo_palette fb_phys fb_virt dma dma_template].
  repeat split.
  - intros ->. f_equal. apply list_insert_insert_eq.
  - intros Hne. f_equal. apply list_insert_insert_ne. lia.
  - f_equal. apply list_insert_insert_eq.
Qed.

Lemma setcolreg_writes_compose_witness :
  let d := vdmafb_init_var zero_dev in
  snd (vdmafb_setcolreg 2 1 2 3 4
         (snd (vdmafb_setcolreg 7 65535 0 0 0 d))) =
  snd (vdmafb_setcolreg 7 65535 0 0 0
         (snd (vdmafb_setcolreg 2 1 2 3 4 d))).
Proof.
  cbv zeta.
  pose proof (setcolreg_writes_compose 7 2 65535 0 0 0 1 2 3 4
                (vdmafb_init_var zero_dev) ltac:(lia) ltac:(lia)) as H.
  cbv zeta beta in H.
  destruct H as [_ [Hcomm _]].
  apply Hcomm. lia.
Defined.

(** Whatever the arguments and the layout, a call of vdmafb_setcolreg
    keeps the number of palette entries, and keeps every entry a 32-bit
    value when the entries were. *)
Theorem setcolreg_keeps_palette_shape
    (regno red green blue transp : Z) (fbdev : vdmafb_dev) :
  Forall (fun x => 0 <= x < 2 ^ 32) (pseudo_palette fbdev) ->
  let d := snd (vdmafb_setcolreg regno red green blue transp fbdev) in
  List.length (pseudo_palette d) = List.length (pseudo_palette fbdev) /\
  Forall (fun x => 0 <= x < 2 ^ 32) (pseudo_palette d).
Proof.
  intros Hall d. subst d. unfold vdmafb_setcolreg.
  destruct (16 <=? u32 regno); cbn [snd pseudo_palette set_pseudo_palette].
  - split; [reflexivity | exact Hall].
  - split; [apply length_insert |].
    apply Forall_insert; [exact Hall |].
    unfold or32, shl32.
    destruct (0 <? fb.length (fb.transp (fb.var (info fbdev))));
      repeat apply lor_u32_range; apply u32_range.
Qed.

Lemma setcolreg_keeps_palette_shape_witness :
  let d := snd (vdmafb_setcolreg 5 4294967295 4294967295 4294967295 0
                  (vdmafb_init_var zero_dev)) in
  List.length (pseudo_palette d) = 16%nat /\
  Forall (fun x => 0 <= x < 2 ^ 32) (pseudo_palette d).
Proof.
  apply (setcolreg_keeps_palette_shape 5 4294967295 4294967295 4294967295 0
           (vdmafb_init_var zero_dev)).
  simpl. repeat constructor; lia.
Defined.

(** ** The descriptor builder and vdmafb_setupfb: what they leave alone *)

(** Whatever the channel pointer and the outcome, vdmafb_setupfb writes
    no memory, makes no teardown call, and changes nothing of the device
    structure but the template, whose destination address it keeps; on a
    NULL or error pointer the engine is left as it was. *)
Theorem setupfb_frame
    (p : platform) (e : env) (fbdev : vdmafb_dev) (w : world) :
  let r := vdmafb_setupfb p e fbdev w in
  let d := snd (fst r) in
  (forall a : Z, w_heap (snd r) a = w_heap w a) /\
  info d = info fbdev /\
  fb_phys d = fb_phys fbdev /\
  fb_virt d = fb_virt fbdev /\
  dma d = dma fbdev /\
  pseudo_palette d = pseudo_palette fbdev /\
  dmaengine.dst_start (dma_template d) =
    dmaengine.dst_start (dma_template fbdev) /\
  List.filter is_teardown (w_log (snd r)) =
    List.filter is_teardown (w_log w) /\
  (dmaengine.IS_ERR_OR_NULL (dma fbdev) = true ->
     w_engine (snd r) = w_engine w).
Proof.
  intros r d. subst d r.
  unfold vdmafb_setupfb, dmaengine_terminate_all,
    xilinx_vdma_channel_set_config, dmaengine_prep_interleaved_dma,
    dmaengine_submit, dma_async_issue_pending, on_channel, on_engine,
    emit, bind, ret.
  cbn [dma set_dma_template].
  destruct (dma fbdev) eqn:Hd; destruct (env_prep e);
    cbn [fst snd w_heap w_log w_engine info fb_phys fb_virt dma
         pseudo_palette dma_template set_dma_template dmaengine.dst_start];
    rewrite ?Hd;
    rewrite !List.filter_app; cbn [List.filter is_teardown];
    rewrite !app_nil_r;
    repeat split; intros; try reflexivity; discriminate.
Qed.

Lemma setupfb_frame_witness :
  let d := set_dma (dev_with_res 800 480) dmaengine.chan_null in
  w_engine (snd (vdmafb_setupfb zynq env_ok d (bound_world heap0))) =
    w_engine (bound_world heap0).
Proof.
  cbv zeta.
  pose proof (setupfb_frame zynq env_ok
                (set_dma (dev_with_res 800 480) dmaengine.chan_null)
                (bound_world heap0)) as H.
  cbv zeta in H.
  destruct H as [_ [_ [_ [_ [_ [_ [_ [_ Heng]]]]]]]].
  apply Heng. reflexivity.
Defined.

(** The template is a function of the horizontal and vertical
    resolution, the buffer's physical address, the old destination
    address and the platform, and of nothing else: not of the kernel's
    answers, the world, the bits per pixel, the palette or the virtual
    address.  Building it again on the result gives the same template. *)
Theorem built_template_pure (p : platform) :
  (forall (e1 e2 : env) (d : vdmafb_dev) (w1 w2 : world),
     built_template p e1 d w1 = built_template p e2 d w2) /\
  (forall (e : env) (d1 d2 : vdmafb_dev) (w : world),
     fb.xres (fb.var (info d1)) = fb.xres (fb.var (info d2)) ->
     fb.yres (fb.var (info d1)) = fb.yres (fb.var (info d2)) ->
     fb_phys d1 = fb_phys d2 ->
     dmaengine.dst_start (dma_template d1) =
       dmaengine.dst_start (dma_template d2) ->
     built_template p e d1 w = built_template p e d2 w) /\
  (forall (e e' : env) (d : vdmafb_dev) (w w' : world),
     built_template p e' (snd (fst (vdmafb_setupfb p e d w))) w' =
       built_template p e d w).
Proof.
  repeat split.
  - intros. rewrite !built_template_eq. reflexivity.
  - intros e d1 d2 w Hx Hy Hp Hd. rewrite !built_template_eq.
    rewrite Hx, Hy, Hp, Hd. reflexivity.
  - intros e e' d w w'.
    pose proof (setupfb_frame p e d w) as H. cbv zeta in H.
    destruct H as [_ [Hi [Hp [_ [_ [_ [Hd _]]]]]]].
    rewrite !built_template_eq. rewrite Hi, Hp, Hd. reflexivity.
Qed.

Lemma built_template_pure_witness :
  built_template zynq env_ok
    (set_pseudo_palette (dev_with_res 800 480) []) (initial_world heap0) =
  built_template zynq env_ok (dev_with_res 800 480) (initial_world heap0).
Proof.
  apply (proj1 (proj2 (built_template_pure zynq))); reflexivity.
Defined.

(** For a geometry of four bytes per pixel whose line and frame sizes
    do not overflow, the chunk size of the template is the line length
    vdmafb_init_fix computes, and frame count times chunk size is the
    frame buffer length: the transfer covers the buffer exactly. *)
Theorem template_covers_frame_buffer
    (p : platform) (e : env) (fbdev : vdmafb_dev) (w : world) :
  platform_ok p ->
  0 < fb.xres (fb.var (info fbdev)) ->
  0 <= fb.yres (fb.var (info fbdev)) ->
  fb.xres (fb.var (info fbdev)) * 4 <= INT_MAX ->
  fb.xres (fb.var (info fbdev)) * 4 * fb.yres (fb.var (info fbdev)) < 2 ^ 32 ->
  fb.bits_per_pixel (fb.var (info fbdev)) / 8 = 4 ->
  let d := vdmafb_init_fix fbdev in
  let t := built_template p e d w in
  dmaengine.size (dmaengine.sgl t) = fb.line_length (fb.fix_ (info d)) /\
  dmaengine.numf t * dmaengine.size (dmaengine.sgl t) =
    fb.smem_len (fb.fix_ (info d)) /\
  dmaengine.icg (dmaengine.sgl t) = 0.
Proof.
  intros Hp Hx Hy Hmax Hfb Hbpp d t. subst t d.
  rewrite built_template_eq.
  cbn [vdmafb_init_fix set_fix set_info info fb.var fb.fix_ fb.line_length
       fb.smem_len dmaengine.size dmaengine.sgl dmaengine.numf dmaengine.icg].
  rewrite Hbpp. unfold INT_MAX in Hmax.
  set (x := fb.xres (fb.var (info fbdev))) in *.
  set (y := fb.yres (fb.var (info fbdev))) in *.
  assert (Hy32 : y < 2 ^ 32) by nia.
  assert (Hm : mul32 x 4 = x * 4) by (unfold mul32; apply u32_small; lia).
  rewrite Hm.
  assert (Hm2 : mul32 (x * 4) y = x * 4 * y)
    by (unfold mul32; apply u32_small; nia).
  rewrite Hm2, s32_small by (unfold INT_MAX; lia).
  rewrite !to_size_t_small by (try exact Hp; lia).
  repeat split. lia.
Qed.

Lemma template_covers_frame_buffer_witness :
  let d := vdmafb_init_fix (dev_with_res 1920 1080) in
  let t := built_template zynqmp env_ok d (initial_world heap0) in
  dmaengine.size (dmaengine.sgl t) = fb.line_length (fb.fix_ (info d)) /\
  dmaengine.numf t * dmaengine.size (dmaengine.sgl t) =
    fb.smem_len (fb.fix_ (info d)) /\
  dmaengine.icg (dmaengine.sgl t) = 0.
Proof.
  apply (template_covers_frame_buffer zynqmp env_ok (dev_with_res 1920 1080)
           (initial_world heap0)).
  - exact zynqmp_ok.
  - simpl. lia.
  - simpl. lia.
  - simpl. unfold INT_MAX. lia.
  - simpl. lia.
  - reflexivity.
Defined.

(** ** Attach and detach: what is returned, held and written *)

(** PAGE_ALIGN rounds up to the next multiple of a power-of-two page
    size. *)
Lemma PAGE_ALIGN_bounds (p : platform) (x : Z) :
  platform_ok p ->
  x <= PAGE_ALIGN p x < x + PAGE_SIZE p /\
  PAGE_ALIGN p x mod PAGE_SIZE p = 0.
Proof.
  intros [_ [k [Hk Hps]]]. unfold PAGE_ALIGN. rewrite Hps.
  replace (2 ^ k - 1) with (Z.ones k) by (rewrite Z.ones_equiv; lia).
  rewrite <- Z.sub_land_same_l, Z.land_ones by lia.
  assert (Hpos : 0 < 2 ^ k) by (apply Z.pow_pos_nonneg; lia).
  pose proof (Z.mod_pos_bound (x + Z.ones k) (2 ^ k) Hpos) as Hm.
  split.
  - rewrite Z.ones_equiv in *. lia.
  - rewrite Zminus_mod_idemp_r, Z.sub_diag. apply Z.mod_0_l. lia.
Qed.

(** The sizes probe allocates and remove frees for the fixed geometry:
    both are the page-aligned frame buffer length, computed in [int] by
    probe and in [u32] by remove. *)
Lemma probe_alloc_size (p : platform) :
  platform_ok p ->
  to_size_t p (s32 (PAGE_ALIGN p (s32 (mul32 (mul32 800 (32 / 8)) 480))))
    = PAGE_ALIGN p 1536000 /\
  to_size_t p (u32 (PAGE_ALIGN p (mul32 (mul32 800 (32 / 8)) 480)))
    = PAGE_ALIGN p 1536000 /\
  1536000 <= PAGE_ALIGN p 1536000 < 2 ^ 31.
Proof.
  intros Hp.
  change (s32 (mul32 (mul32 800 (32 / 8)) 480)) with 1536000.
  change (mul32 (mul32 800 (32 / 8)) 480) with 1536000.
  pose proof (PAGE_ALIGN_bounds p 1536000 Hp) as [Hb _].
  assert (Hps : PAGE_SIZE p <= 2 ^ 30).
  { destruct Hp as [_ [k [Hk ->]]]. apply Z.pow_le_mono_r; lia. }
  assert (Hr : 1536000 <= PAGE_ALIGN p 1536000 < 2 ^ 31) by lia.
  rewrite s32_small by (unfold INT_MAX; lia).
  rewrite u32_small by lia.
  rewrite to_size_t_small by (try exact Hp; lia).
  repeat split; lia.
Qed.

Lemma probe_return_formula (p : platform) (e : env) (h : heap) :
  fst (fst (vdmafb_probe p e (initial_world h))) =
    if negb (env_fbdev_alloc e) || negb (env_template_alloc e)
       || (env_fb_virt e =? 0)
    then - ENOMEM
    else match env_chan e with
         | dmaengine.chan_null => 0
         | dmaengine.chan_err err => s32 err
         | dmaengine.chan_ok _ => env_register e
         end.
Proof.
  destruct e as [a b virt phys c prep cmap reg].
  cbn [env_fbdev_alloc env_template_alloc env_fb_virt env_chan env_register].
  destruct a; [| reflexivity].
  destruct b; [| reflexivity].
  run_driver.
  destruct (virt =? 0); [reflexivity |].
  destruct c as [| err | ch]; simp_run; try reflexivity.
  destruct prep; simp_run;
    (destruct (Z.eqb_spec reg 0) as [-> | _]; reflexivity).
Qed.

(** The value probe returns is decided by the three allocations, the
    channel lookup and register_framebuffer alone: -ENOMEM when an
    allocation fails, 0 for a NULL channel, the encoded error for an
    error pointer, and otherwise whatever register_framebuffer returned.
    Neither the outcome of the descriptor preparation nor that of
    fb_alloc_cmap can change it. *)
Theorem probe_return_value (p : platform) (e : env) (h : heap) :
  let ret_of := fun e' => fst (fst (vdmafb_probe p e' (initial_world h))) in
  ret_of e =
    (if negb (env_fbdev_alloc e) || negb (env_template_alloc e)
        || (env_fb_virt e =? 0)
     then - ENOMEM
     else match env_chan e with
          | dmaengine.chan_null => 0
          | dmaengine.chan_err err => s32 err
          | dmaengine.chan_ok _ => env_register e
          end) /\
  (forall (b : bool) (cm : Z),
     ret_of (with_prep (with_cmap e cm) b) = ret_of e).
Proof.
  intros ret_of. subst ret_of. cbv beta.
  split; [apply probe_return_formula |].
  intros b cm. rewrite !probe_return_formula. reflexivity.
Qed.



(** Probe writes memory inside the frame buffer only: every byte outside
    the 1,536,000 bytes at the address dma_alloc_coherent returned is as
    it was before, whatever the outcome. *)
Theorem probe_writes_buffer_only
    (p : platform) (e : env) (h : heap) (a : Z) :
  platform_ok p ->
  ~ (env_fb_virt e <= a < env_fb_virt e + 1536000) ->
  w_heap (snd (vdmafb_probe p e (initial_world h))) a = h a.
Proof.
  intros Hp Ha.
  pose proof (probe_memset_size p Hp) as Hn.
  assert (Hout : heap_memset (env_fb_virt e) 0 (800 * 4 * 480) h a = h a).
  { unfold heap_memset.
    destruct (Z.leb_spec (env_fb_virt e) a);
      destruct (Z.ltb_spec a (env_fb_virt e + 800 * 4 * 480));
      try reflexivity; lia. }
  destruct e as [fa fb virt phys c prep cmap reg].
  cbn [env_fb_virt] in *.
  destruct fa; [| reflexivity].
  destruct fb; [| reflexivity].
  run_driver.
  destruct (virt =? 0); [reflexivity |].
  destruct c as [| err | ch]; simp_run;
    try (destruct prep; simp_run; destruct (reg =? 0); simp_run);
    rewrite Hn; exact Hout.
Qed.

Lemma probe_writes_buffer_only_witness :
  w_heap (snd (vdmafb_probe zynq env_ok (initial_world heap0)))
    (env_fb_virt env_ok + 1536000) = 170.
Proof.
  apply (probe_writes_buffer_only zynq env_ok heap0
           (env_fb_virt env_ok + 1536000) zynq_ok).
  lia.
Defined.

(** When the allocations, the channel lookup and the registration all
    succeed, probe returns 0 holding exactly one buffer, one channel and
    one registration, having made no teardown call; its last call is
    register_framebuffer on the device's own fb_info, which carries the
    buffer's addresses and the fixed sizes; the palette is all zero; and
    the channel is parked, streaming the device's template when the
    descriptor could be prepared and idle with nothing active when not. *)
Theorem probe_success_state (p : platform) (e : env) (h : heap) (ch : Z) :
  env_fbdev_alloc e = true ->
  env_template_alloc e = true ->
  env_fb_virt e <> 0 ->
  env_chan e = dmaengine.chan_ok ch ->
  env_register e = 0 ->
  let r := vdmafb_probe p e (initial_world h) in
  exists d : vdmafb_dev,
    fst r = (0, Some d) /\
    (fb_virt d = env_fb_virt e /\ fb_phys d = env_fb_phys e /\
     dma d = dmaengine.chan_ok ch /\
     pseudo_palette d = replicate 16 0) /\
    (fb.screen_base (info d) = env_fb_virt e /\
     fb.smem_start (fb.fix_ (info d)) = to_size_t p (env_fb_phys e) /\
     fb.smem_len (fb.fix_ (info d)) = 1536000 /\
     fb.line_length (fb.fix_ (info d)) = 3200) /\
    (last (w_log (snd r)) = Some (E_register_framebuffer (info d) 0) /\
     List.filter is_teardown (w_log (snd r)) = []) /\
    (held buffer_delta (w_log (snd r)) = 1 /\
     held channel_delta (w_log (snd r)) = 1 /\
     held registered_delta (w_log (snd r)) = 1) /\
    (ch_park (w_engine (snd r)) = 1 /\
     ch_state (w_engine (snd r)) =
       (if env_prep e then BoundStreaming else BoundIdle) /\
     ch_active (w_engine (snd r)) =
       (if env_prep e then Some (dma_template d) else None)).
Proof.
  intros Ha Hb Hv Hc Hr r. subst r.
  destruct e as [a b virt phys c prep cmap reg].
  cbn [env_fbdev_alloc env_template_alloc env_fb_virt env_fb_phys env_chan
       env_register env_prep] in *.
  subst a b c reg.
  apply Z.eqb_neq in Hv.
  destruct prep; run_driver; rewrite Hv; simp_run;
    change (0 =? 0) with true; simp_run;
    eexists; (split; [reflexivity |]); simp_run; rewrite ?Hv;
    change (0 =? 0) with true;
    repeat split.
Qed.

Lemma probe_success_state_witness :
  let r := vdmafb_probe zynq env_ok (initial_world heap0) in
  exists d : vdmafb_dev,
    fst r = (0, Some d) /\
    held buffer_delta (w_log (snd r)) = 1 /\
    ch_state (w_engine (snd r)) = BoundStreaming.
Proof.
  cbv zeta.
  destruct (probe_success_state zynq env_ok heap0 1
              eq_refl eq_refl ltac:(discriminate) eq_refl eq_refl)
    as [d [Hd [_ [_ [_ [[Hb _] [_ [Hs _]]]]]]]].
  exists d. split; [exact Hd |]. split; [exact Hb | exact Hs].
Defined.

(** After a successful probe, remove gives back what probe took: it
    frees the buffer with the very size and addresses of the
    allocation, a whole number of pages that covers the 1,536,000 bytes
    of the frame buffer, although probe computes that size in [int] and
    remove in [u32]; and after it no buffer, channel or registration is
    held and the channel is unbound. *)
Theorem probe_remove_balanced (p : platform) (e : env) (h : heap) (ch : Z) :
  platform_ok p ->
  env_fbdev_alloc e = true ->
  env_template_alloc e = true ->
  env_fb_virt e <> 0 ->
  env_chan e = dmaengine.chan_ok ch ->
  env_register e = 0 ->
  let r := vdmafb_probe p e (initial_world h) in
  exists (d : vdmafb_dev) (size : Z),
    snd (fst r) = Some d /\
    (1536000 <= size /\ size mod PAGE_SIZE p = 0) /\
    w_log (snd r) !! 2%nat =
      Some (E_dma_alloc_coherent size (env_fb_virt e) (env_fb_phys e)) /\
    let r' := vdmafb_remove p d (snd r) in
    fst r' = 0 /\
    w_log (snd r') =
      w_log (snd r) ++
      [E_unregister_framebuffer (info d);
       E_dma_release_channel (dmaengine.chan_ok ch);
       E_dma_free_coherent size (env_fb_virt e) (env_fb_phys e);
       E_fb_dealloc_cmap] /\
    (held buffer_delta (w_log (snd r')) = 0 /\
     held channel_delta (w_log (snd r')) = 0 /\
     held registered_delta (w_log (snd r')) = 0) /\
    ch_state (w_engine (snd r')) = Unbound.
Proof.
  intros Hp Ha Hb Hv Hc Hr r. subst r.
  destruct e as [a b virt phys c prep cmap reg].
  cbn [env_fbdev_alloc env_template_alloc env_fb_virt env_fb_phys env_chan
       env_register env_prep] in *.
  subst a b c reg.
  apply Z.eqb_neq in Hv.
  destruct (probe_alloc_size p Hp) as [Hs1 [Hs2 Hs3]].
  destruct (PAGE_ALIGN_bounds p 1536000 Hp) as [_ Hmod].
  destruct prep; run_driver; rewrite Hv; simp_run;
    change (0 =? 0) with true; simp_run;
    eexists; exists (PAGE_ALIGN p 1536000);
    (split; [reflexivity |]);
    (split; [split; [lia | exact Hmod] |]);
    rewrite Hs1; (split; [reflexivity |]);
    simp_run; rewrite ?Hs2, ?Hv; change (0 =? 0) with true;
    repeat split.
Qed.

Lemma probe_remove_balanced_witness :
  let r := vdmafb_probe zynq env_ok (initial_world heap0) in
  exists d : vdmafb_dev,
    snd (fst r) = Some d /\
    held buffer_delta (w_log (snd (vdmafb_remove zynq d (snd r)))) = 0 /\
    ch_state (w_engine (snd (vdmafb_remove zynq d (snd r)))) = Unbound.
Proof.
  cbv zeta.
  destruct (probe_remove_balanced zynq env_ok heap0 1 zynq_ok
              eq_refl eq_refl ltac:(discriminate) eq_refl eq_refl)
    as [d [size [Hd [_ [_ H]]]]].
  cbv zeta in H. destruct H as [_ [_ [[Hb _] Hs]]].
  exists d. split; [exact Hd |]. split; [exact Hb | exact Hs].
Defined.

(** When the channel lookup returns NULL, probe reports success with the
    buffer already freed; a remove that follows unregisters a frame
    buffer that was never registered, releases the NULL channel and
    frees the same buffer, with the same size and addresses, a second
    time. *)
Theorem null_channel_remove_frees_twice
    (p : platform) (e : env) (h : heap) :
  platform_ok p ->
  env_fbdev_alloc e = true ->
  env_template_alloc e = true ->
  env_fb_virt e <> 0 ->
  env_chan e = dmaengine.chan_null ->
  let r := vdmafb_probe p e (initial_world h) in
  let size := PAGE_ALIGN p 1536000 in
  exists d : vdmafb_dev,
    fst r = (0, Some d) /\
    let r' := vdmafb_remove p d (snd r) in
    List.filter is_teardown (w_log (snd r')) =
      [E_dma_free_coherent size (env_fb_virt e) (env_fb_phys e);
       E_unregister_framebuffer (info d);
       E_dma_release_channel dmaengine.chan_null;
       E_dma_free_coherent size (env_fb_virt e) (env_fb_phys e);
       E_fb_dealloc_cmap] /\
    held buffer_delta (w_log (snd r')) = -1 /\
    held registered_delta (w_log (snd r')) = -1.
Proof.
  intros Hp Ha Hb Hv Hc r size. subst r size.
  destruct e as [a b virt phys c prep cmap reg].
  cbn [env_fbdev_alloc env_template_alloc env_fb_virt env_fb_phys env_chan
       env_register env_prep] in *.
  subst a b c.
  apply Z.eqb_neq in Hv.
  destruct (probe_alloc_size p Hp) as [Hs1 [Hs2 _]].
  run_driver. rewrite Hv. simp_run.
  eexists. split; [reflexivity |].
  simp_run. rewrite ?Hs1, ?Hs2, ?Hv. repeat split.
Qed.

Lemma null_channel_remove_frees_twice_witness :
  let e := with_chan env_ok dmaengine.chan_null in
  let r := vdmafb_probe zynq e (initial_world heap0) in
  exists d : vdmafb_dev,
    fst r = (0, Some d) /\
    held buffer_delta (w_log (snd (vdmafb_remove zynq d (snd r)))) = -1.
Proof.
  cbv zeta.
  destruct (null_channel_remove_frees_twice zynq
              (with_chan env_ok dmaengine.chan_null) heap0 zynq_ok
              eq_refl eq_refl ltac:(discriminate) eq_refl)
    as [d [Hd H]].
  cbv zeta in H. destruct H as [_ [Hb _]].
  exists d. split; [exact Hd | exact Hb].
Defined.

Lemma probe_error_paths_witness :
  let e := with_chan env_ok (dmaengine.chan_err (- 19)) in
  let r := vdmafb_probe zynq e (initial_world heap0) in
  fst (fst r) = - 19 /\
  List.filter is_teardown (w_log (snd r)) =
    [E_dma_free_coherent 1536000 3221225472 805306368].
Proof.
  cbv zeta.
  pose proof (probe_error_paths zynq
                (with_chan env_ok (dmaengine.chan_err (- 19))) heap0) as H.
  cbv zeta in H.
  destruct H as [_ [_ [_ [Herr _]]]].
  exact (Herr (- 19) eq_refl eq_refl ltac:(discriminate) eq_refl).
Defined.
